(** * Dig Tool: the frame loop of [src/main.py]

    A shallow embedding of [DigTool.run_main_loop], of the helpers it calls on
    [self] ([check_line_movement], [check_target_engagement],
    [perform_instant_click], [perform_click]) and of
    [_toggle_detection_thread_safe]; then of the latency cache
    ([measure_system_latency], [force_latency_remeasurement],
    [perform_initial_latency_measurement], [get_cached_system_latency]) and
    of [check_milestone_notifications].

    Conventions.
    - Python [float]s are read as exact rationals ([Q]); rounding is not
      modelled.  [int(x)] is truncation towards zero ([py_int]).
    - Pixel columns, widths and counters are Python [int]s ([Z]); the line
      sentinel is [-1].
    - One processed iteration of the [while self.preview_active] loop is a
      function of the loop state and of a [Frame]: the record of everything the
      iteration reads from outside [main.py] (clock, parameters, OpenCV results,
      velocity calculator, automation manager, thread liveness).
    - Threads started by the iteration are returned as a list of [Action]s.
    - An uncaught Python exception is a [Raise] result. *)

From Stdlib Require Import String ZArith QArith Qabs List Bool Sorted Lia Lqa.
Import ListNotations.
Local Open Scope Q_scope.

(** ** Python arithmetic *)

Module Py.

Definition ltb (x y : Q) : bool := negb (Qle_bool y x).
Definition leb (x y : Q) : bool := Qle_bool x y.
Definition eqb (x y : Q) : bool := Qeq_bool x y.

(** [max(a, b)] and [min(a, b)] return the first argument on ties. *)
Definition max (a b : Q) : Q := if ltb a b then b else a.
Definition min (a b : Q) : Q := if ltb b a then b else a.

(** [int(x)] on a float: truncation towards zero. *)
Definition int (x : Q) : Z := Z.quot (Qnum x) (Z.pos (Qden x)).

(** [min(l)] and [max(l)] of a non-empty list of ints. *)
Definition min_list (p : Z) (ps : list Z) : Z := fold_left Z.min ps p.
Definition max_list (p : Z) (ps : list Z) : Z := fold_left Z.max ps p.

Inductive Exc := TypeError | ZeroDivisionError.

Inductive result (A : Type) : Type :=
| Ok (a : A)
| Raise (e : Exc).
Arguments Ok {A} a.
Arguments Raise {A} e.

Definition bind {A B} (r : result A) (k : A -> result B) : result B :=
  match r with
  | Ok a => k a
  | Raise e => Raise e
  end.

(** [r] returned normally with a value satisfying [P]. *)
Definition returns {A} (r : result A) (P : A -> Prop) : Prop :=
  match r with
  | Ok a => P a
  | Raise _ => False
  end.

End Py.

Import Py.
Notation "x <- r ;; k" := (Py.bind r (fun x => k))
  (at level 61, r at next level, right associativity).
Notation "' p <- r ;; k" := (Py.bind r (fun x => let 'p := x in k))
  (at level 61, p pattern, r at next level, right associativity).

(** ** Data *)

Inductive AutoWalkState := move | click_to_start | wait_for_target | digging.

Definition AutoWalkState_eqb (a b : AutoWalkState) : bool :=
  match a, b with
  | move, move | click_to_start, click_to_start
  | wait_for_target, wait_for_target | digging, digging => true
  | _, _ => false
  end.

Definition HSV : Type := Q * Q * Q.

(** The largest external contour of the mask: its bounding rectangle
    ([cv2.boundingRect]), the mean HSV under it ([cv2.mean]) and that colour
    as a hex string. *)
Record Contour := {
  x_temp : Z;
  w_temp : Z;
  h_temp : Z;
  mean_hsv : HSV;
  mean_hex : string
}.

(** A walk-pattern entry: a key name, or a dict with optional ["duration"]
    and ["click"] entries. *)
Inductive Direction :=
| KeyStep (key : string)
| DictStep (key : string) (duration : option Q) (click : option bool).

(** Which call site started a [perform_click] thread. *)
Inductive ClickSite := predictive_click | start_click | retry_click.

Inductive Action :=
| StartInstantClick (tid : nat)
| StartClick (site : ClickSite) (delay : Q)
| SaveDebugScreenshot (prediction_used : bool) (confidence : Q)
| StartWalk (direction : Direction)
| StartAutoSell.

(** The attributes of [self] that the loop reads or writes. *)
Record DigTool := {
  running : bool;
  click_count : Z;
  dig_count : Z;
  click_lock : bool;
  blind_until : Q;
  frames_since_last_zone_detection : Z;
  smoothed_zone_x : option Q;
  smoothed_zone_w : option Q;
  is_color_locked : bool;
  locked_color_hsv : option HSV;
  locked_color_hex : option string;
  is_low_sat_lock : bool;
  target_engaged : bool;
  line_moving_history : list Z;
  click_thread_pool : list nat;
  startup_time : option Q
}.

(** The locals of [run_main_loop] that live across iterations. *)
Record Locals := {
  auto_walk_state : AutoWalkState;
  move_completed_time : Q;
  wait_for_target_start : Q;
  current_step_click_enabled : bool;
  dig_completed_time : Q;
  target_disengaged_time : Q;
  pending_auto_sell : bool;
  click_retry_count : Z;
  click_delay : Q
}.

(** What one processed iteration reads from outside. *)
Record Frame := {
  current_time_ms : Q;
  (* get_param *)
  target_fps : Q;
  zone_min_width : Q;
  max_zone_width_percent : Q;
  min_zone_height_percent : Q;
  zone_smoothing_factor : Q;
  auto_walk_enabled : bool;
  walk_duration : Q;
  post_click_blindness : Q;
  prediction_enabled : bool;
  prediction_confidence_threshold : Q;
  auto_sell_enabled : bool;
  sell_every_x_digs : Z;
  (* screenshot and OpenCV *)
  width : Z;
  height_80 : Z;
  line_pos : Z;
  contour : option Contour;
  (* core.detection *)
  velocity : Q;
  dynamic_sweet_spot_width : Q;
  predict_position : Q * Q;
  prediction_confidence : Q;
  cached_system_latency : Q;
  (* automation manager *)
  is_selling : bool;
  auto_sell_ready : bool;
  walk_thread_alive : bool;
  next_walk_direction : Direction;
  sell_button_set : bool;
  (* threading *)
  is_alive : nat -> bool;
  new_thread : nat
}.

Definition set_running v (d : DigTool) : DigTool :=
    {| running := v; click_count := click_count d; dig_count := dig_count d; click_lock :=
     click_lock d; blind_until := blind_until d; frames_since_last_zone_detection :=
     frames_since_last_zone_detection d; smoothed_zone_x := smoothed_zone_x d;
     smoothed_zone_w := smoothed_zone_w d; is_color_locked := is_color_locked d;
     locked_color_hsv := locked_color_hsv d; locked_color_hex := locked_color_hex d;
     is_low_sat_lock := is_low_sat_lock d; target_engaged := target_engaged d;
     line_moving_history := line_moving_history d; click_thread_pool := click_thread_pool d;
     startup_time := startup_time d |}.
Definition set_click_count v (d : DigTool) : DigTool :=
    {| running := running d; click_count := v; dig_count := dig_count d; click_lock :=
     click_lock d; blind_until := blind_until d; frames_since_last_zone_detection :=
     frames_since_last_zone_detection d; smoothed_zone_x := smoothed_zone_x d;
     smoothed_zone_w := smoothed_zone_w d; is_color_locked := is_color_locked d;
     locked_color_hsv := locked_color_hsv d; locked_color_hex := locked_color_hex d;
     is_low_sat_lock := is_low_sat_lock d; target_engaged := target_engaged d;
     line_moving_history := line_moving_history d; click_thread_pool := click_thread_pool d;
     startup_time := startup_time d |}.
Definition set_dig_count v (d : DigTool) : DigTool :=
    {| running := running d; click_count := click_count d; dig_count := v; click_lock :=
     click_lock d; blind_until := blind_until d; frames_since_last_zone_detection :=
     frames_since_last_zone_detection d; smoothed_zone_x := smoothed_zone_x d;
     smoothed_zone_w := smoothed_zone_w d; is_color_locked := is_color_locked d;
     locked_color_hsv := locked_color_hsv d; locked_color_hex := locked_color_hex d;
     is_low_sat_lock := is_low_sat_lock d; target_engaged := target_engaged d;
     line_moving_history := line_moving_history d; click_thread_pool := click_thread_pool d;
     startup_time := startup_time d |}.
Definition set_click_lock v (d : DigTool) : DigTool :=
    {| running := running d; click_count := click_count d; dig_count := dig_count d;
     click_lock := v; blind_until := blind_until d; frames_since_last_zone_detection :=
     frames_since_last_zone_detection d; smoothed_zone_x := smoothed_zone_x d;
     smoothed_zone_w := smoothed_zone_w d; is_color_locked := is_color_locked d;
     locked_color_hsv := locked_color_hsv d; locked_color_hex := locked_color_hex d;
     is_low_sat_lock := is_low_sat_lock d; target_engaged := target_engaged d;
     line_moving_history := line_moving_history d; click_thread_pool := click_thread_pool d;
     startup_time := startup_time d |}.
Definition set_blind_until v (d : DigTool) : DigTool :=
    {| running := running d; click_count := click_count d; dig_count := dig_count d;
     click_lock := click_lock d; blind_until := v; frames_since_last_zone_detection :=
     frames_since_last_zone_detection d; smoothed_zone_x := smoothed_zone_x d;
     smoothed_zone_w := smoothed_zone_w d; is_color_locked := is_color_locked d;
     locked_color_hsv := locked_color_hsv d; locked_color_hex := locked_color_hex d;
     is_low_sat_lock := is_low_sat_lock d; target_engaged := target_engaged d;
     line_moving_history := line_moving_history d; click_thread_pool := click_thread_pool d;
     startup_time := startup_time d |}.
Definition set_frames_since_last_zone_detection v (d : DigTool) : DigTool :=
    {| running := running d; click_count := click_count d; dig_count := dig_count d;
     click_lock := click_lock d; blind_until := blind_until d;
     frames_since_last_zone_detection := v; smoothed_zone_x := smoothed_zone_x d;
     smoothed_zone_w := smoothed_zone_w d; is_color_locked := is_color_locked d;
     locked_color_hsv := locked_color_hsv d; locked_color_hex := locked_color_hex d;
     is_low_sat_lock := is_low_sat_lock d; target_engaged := target_engaged d;
     line_moving_history := line_moving_history d; click_thread_pool := click_thread_pool d;
     startup_time := startup_time d |}.
Definition set_smoothed_zone_x v (d : DigTool) : DigTool :=
    {| running := running d; click_count := click_count d; dig_count := dig_count d;
     click_lock := click_lock d; blind_until := blind_until d;
     frames_since_last_zone_detection := frames_since_last_zone_detection d; smoothed_zone_x
     := v; smoothed_zone_w := smoothed_zone_w d; is_color_locked := is_color_locked d;
     locked_color_hsv := locked_color_hsv d; locked_color_hex := locked_color_hex d;
     is_low_sat_lock := is_low_sat_lock d; target_engaged := target_engaged d;
     line_moving_history := line_moving_history d; click_thread_pool := click_thread_pool d;
     startup_time := startup_time d |}.
Definition set_smoothed_zone_w v (d : DigTool) : DigTool :=
    {| running := running d; click_count := click_count d; dig_count := dig_count d;
     click_lock := click_lock d; blind_until := blind_until d;
     frames_since_last_zone_detection := frames_since_last_zone_detection d; smoothed_zone_x
     := smoothed_zone_x d; smoothed_zone_w := v; is_color_locked := is_color_locked d;
     locked_color_hsv := locked_color_hsv d; locked_color_hex := locked_color_hex d;
     is_low_sat_lock := is_low_sat_lock d; target_engaged := target_engaged d;
     line_moving_history := line_moving_history d; click_thread_pool := click_thread_pool d;
     startup_time := startup_time d |}.
Definition set_is_color_locked v (d : DigTool) : DigTool :=
    {| running := running d; click_count := click_count d; dig_count := dig_count d;
     click_lock := click_lock d; blind_until := blind_until d;
     frames_since_last_zone_detection := frames_since_last_zone_detection d; smoothed_zone_x
     := smoothed_zone_x d; smoothed_zone_w := smoothed_zone_w d; is_color_locked := v;
     locked_color_hsv := locked_color_hsv d; locked_color_hex := locked_color_hex d;
     is_low_sat_lock := is_low_sat_lock d; target_engaged := target_engaged d;
     line_moving_history := line_moving_history d; click_thread_pool := click_thread_pool d;
     startup_time := startup_time d |}.
Definition set_locked_color_hsv v (d : DigTool) : DigTool :=
    {| running := running d; click_count := click_count d; dig_count := dig_count d;
     click_lock := click_lock d; blind_until := blind_until d;
     frames_since_last_zone_detection := frames_since_last_zone_detection d; smoothed_zone_x
     := smoothed_zone_x d; smoothed_zone_w := smoothed_zone_w d; is_color_locked :=
     is_color_locked d; locked_color_hsv := v; locked_color_hex := locked_color_hex d;
     is_low_sat_lock := is_low_sat_lock d; target_engaged := target_engaged d;
     line_moving_history := line_moving_history d; click_thread_pool := click_thread_pool d;
     startup_time := startup_time d |}.
Definition set_locked_color_hex v (d : DigTool) : DigTool :=
    {| running := running d; click_count := click_count d; dig_count := dig_count d;
     click_lock := click_lock d; blind_until := blind_until d;
     frames_since_last_zone_detection := frames_since_last_zone_detection d; smoothed_zone_x
     := smoothed_zone_x d; smoothed_zone_w := smoothed_zone_w d; is_color_locked :=
     is_color_locked d; locked_color_hsv := locked_color_hsv d; locked_color_hex := v;
     is_low_sat_lock := is_low_sat_lock d; target_engaged := target_engaged d;
     line_moving_history := line_moving_history d; click_thread_pool := click_thread_pool d;
     startup_time := startup_time d |}.
Definition set_is_low_sat_lock v (d : DigTool) : DigTool :=
    {| running := running d; click_count := click_count d; dig_count := dig_count d;
     click_lock := click_lock d; blind_until := blind_until d;
     frames_since_last_zone_detection := frames_since_last_zone_detection d; smoothed_zone_x
     := smoothed_zone_x d; smoothed_zone_w := smoothed_zone_w d; is_color_locked :=
     is_color_locked d; locked_color_hsv := locked_color_hsv d; locked_color_hex :=
     locked_color_hex d; is_low_sat_lock := v; target_engaged := target_engaged d;
     line_moving_history := line_moving_history d; click_thread_pool := click_thread_pool d;
     startup_time := startup_time d |}.
Definition set_target_engaged v (d : DigTool) : DigTool :=
    {| running := running d; click_count := click_count d; dig_count := dig_count d;
     click_lock := click_lock d; blind_until := blind_until d;
     frames_since_last_zone_detection := frames_since_last_zone_detection d; smoothed_zone_x
     := smoothed_zone_x d; smoothed_zone_w := smoothed_zone_w d; is_color_locked :=
     is_color_locked d; locked_color_hsv := locked_color_hsv d; locked_color_hex :=
     locked_color_hex d; is_low_sat_lock := is_low_sat_lock d; target_engaged := v;
     line_moving_history := line_moving_history d; click_thread_pool := click_thread_pool d;
     startup_time := startup_time d |}.
Definition set_line_moving_history v (d : DigTool) : DigTool :=
    {| running := running d; click_count := click_count d; dig_count := dig_count d;
     click_lock := click_lock d; blind_until := blind_until d;
     frames_since_last_zone_detection := frames_since_last_zone_detection d; smoothed_zone_x
     := smoothed_zone_x d; smoothed_zone_w := smoothed_zone_w d; is_color_locked :=
     is_color_locked d; locked_color_hsv := locked_color_hsv d; locked_color_hex :=
     locked_color_hex d; is_low_sat_lock := is_low_sat_lock d; target_engaged :=
     target_engaged d; line_moving_history := v; click_thread_pool := click_thread_pool d;
     startup_time := startup_time d |}.
Definition set_click_thread_pool v (d : DigTool) : DigTool :=
    {| running := running d; click_count := click_count d; dig_count := dig_count d;
     click_lock := click_lock d; blind_until := blind_until d;
     frames_since_last_zone_detection := frames_since_last_zone_detection d; smoothed_zone_x
     := smoothed_zone_x d; smoothed_zone_w := smoothed_zone_w d; is_color_locked :=
     is_color_locked d; locked_color_hsv := locked_color_hsv d; locked_color_hex :=
     locked_color_hex d; is_low_sat_lock := is_low_sat_lock d; target_engaged :=
     target_engaged d; line_moving_history := line_moving_history d; click_thread_pool := v;
     startup_time := startup_time d |}.
Definition set_startup_time v (d : DigTool) : DigTool :=
    {| running := running d; click_count := click_count d; dig_count := dig_count d;
     click_lock := click_lock d; blind_until := blind_until d;
     frames_since_last_zone_detection := frames_since_last_zone_detection d; smoothed_zone_x
     := smoothed_zone_x d; smoothed_zone_w := smoothed_zone_w d; is_color_locked :=
     is_color_locked d; locked_color_hsv := locked_color_hsv d; locked_color_hex :=
     locked_color_hex d; is_low_sat_lock := is_low_sat_lock d; target_engaged :=
     target_engaged d; line_moving_history := line_moving_history d; click_thread_pool :=
     click_thread_pool d; startup_time := v |}.
Definition set_auto_walk_state v (l : Locals) : Locals :=
    {| auto_walk_state := v; move_completed_time := move_completed_time l;
     wait_for_target_start := wait_for_target_start l; current_step_click_enabled :=
     current_step_click_enabled l; dig_completed_time := dig_completed_time l;
     target_disengaged_time := target_disengaged_time l; pending_auto_sell :=
     pending_auto_sell l; click_retry_count := click_retry_count l; click_delay :=
     click_delay l |}.
Definition set_move_completed_time v (l : Locals) : Locals :=
    {| auto_walk_state := auto_walk_state l; move_completed_time := v; wait_for_target_start
     := wait_for_target_start l; current_step_click_enabled := current_step_click_enabled l;
     dig_completed_time := dig_completed_time l; target_disengaged_time :=
     target_disengaged_time l; pending_auto_sell := pending_auto_sell l; click_retry_count
     := click_retry_count l; click_delay := click_delay l |}.
Definition set_wait_for_target_start v (l : Locals) : Locals :=
    {| auto_walk_state := auto_walk_state l; move_completed_time := move_completed_time l;
     wait_for_target_start := v; current_step_click_enabled := current_step_click_enabled l;
     dig_completed_time := dig_completed_time l; target_disengaged_time :=
     target_disengaged_time l; pending_auto_sell := pending_auto_sell l; click_retry_count
     := click_retry_count l; click_delay := click_delay l |}.
Definition set_current_step_click_enabled v (l : Locals) : Locals :=
    {| auto_walk_state := auto_walk_state l; move_completed_time := move_completed_time l;
     wait_for_target_start := wait_for_target_start l; current_step_click_enabled := v;
     dig_completed_time := dig_completed_time l; target_disengaged_time :=
     target_disengaged_time l; pending_auto_sell := pending_auto_sell l; click_retry_count
     := click_retry_count l; click_delay := click_delay l |}.
Definition set_dig_completed_time v (l : Locals) : Locals :=
    {| auto_walk_state := auto_walk_state l; move_completed_time := move_completed_time l;
     wait_for_target_start := wait_for_target_start l; current_step_click_enabled :=
     current_step_click_enabled l; dig_completed_time := v; target_disengaged_time :=
     target_disengaged_time l; pending_auto_sell := pending_auto_sell l; click_retry_count
     := click_retry_count l; click_delay := click_delay l |}.
Definition set_target_disengaged_time v (l : Locals) : Locals :=
    {| auto_walk_state := auto_walk_state l; move_completed_time := move_completed_time l;
     wait_for_target_start := wait_for_target_start l; current_step_click_enabled :=
     current_step_click_enabled l; dig_completed_time := dig_completed_time l;
     target_disengaged_time := v; pending_auto_sell := pending_auto_sell l;
     click_retry_count := click_retry_count l; click_delay := click_delay l |}.
Definition set_pending_auto_sell v (l : Locals) : Locals :=
    {| auto_walk_state := auto_walk_state l; move_completed_time := move_completed_time l;
     wait_for_target_start := wait_for_target_start l; current_step_click_enabled :=
     current_step_click_enabled l; dig_completed_time := dig_completed_time l;
     target_disengaged_time := target_disengaged_time l; pending_auto_sell := v;
     click_retry_count := click_retry_count l; click_delay := click_delay l |}.
Definition set_click_retry_count v (l : Locals) : Locals :=
    {| auto_walk_state := auto_walk_state l; move_completed_time := move_completed_time l;
     wait_for_target_start := wait_for_target_start l; current_step_click_enabled :=
     current_step_click_enabled l; dig_completed_time := dig_completed_time l;
     target_disengaged_time := target_disengaged_time l; pending_auto_sell :=
     pending_auto_sell l; click_retry_count := v; click_delay := click_delay l |}.
Definition set_click_delay v (l : Locals) : Locals :=
    {| auto_walk_state := auto_walk_state l; move_completed_time := move_completed_time l;
     wait_for_target_start := wait_for_target_start l; current_step_click_enabled :=
     current_step_click_enabled l; dig_completed_time := dig_completed_time l;
     target_disengaged_time := target_disengaged_time l; pending_auto_sell :=
     pending_auto_sell l; click_retry_count := click_retry_count l; click_delay := v |}.

(** ** [check_line_movement], [check_target_engagement] *)

Definition base_line_movement_check_frames : Q := 30.
Definition min_movement_threshold : Z := 50.

Definition valid_positions (history : list Z) : list Z :=
  filter (fun pos => negb (pos =? -1)%Z) history.

(** [check_line_movement] on the history list: the new history and the
    answer. *)
Definition line_movement (history : list Z) (line_pos : Z) (target_fps : Q)
  : list Z * bool :=
  let line_movement_check_frames :=
    Z.max (Py.int (base_line_movement_check_frames * (target_fps / 120))) 10 in
  let history := history ++ [line_pos] in
  let history :=
    if (Z.of_nat (length history) >? line_movement_check_frames)%Z
    then tl history else history in
  if (length history <? 10)%nat then (history, false) else
  match valid_positions history with
  | [] => (history, false)
  | pos :: rest =>
      if (length (pos :: rest) <? 5)%nat then (history, false) else
      let min_pos := Py.min_list pos rest in
      let max_pos := Py.max_list pos rest in
      let movement_range := (max_pos - min_pos)%Z in
      (history, (movement_range >=? min_movement_threshold)%Z)
  end.

Definition check_line_movement (d : DigTool) (line_pos : Z) (target_fps : Q)
  : DigTool * bool :=
  let '(history, moving) :=
    line_movement (line_moving_history d) line_pos target_fps in
  (set_line_moving_history history d, moving).

Definition check_target_engagement (d : DigTool) (line_pos : Z) (target_fps : Q)
  : DigTool * bool :=
  let line_detected := negb (line_pos =? -1)%Z in
  let '(d, line_moving) := check_line_movement d line_pos target_fps in
  (d, line_detected && line_moving).

(** ** [_toggle_detection_thread_safe] and the click threads *)

Definition toggle_detection_thread_safe (game_area_set : bool) (time_ms : Q)
  (d : DigTool) : DigTool :=
  if negb (running d) then
    if negb game_area_set then d else
    let d := set_running true d in
    let d := set_click_count 0%Z d in
    let d := set_dig_count 0%Z d in
    let d := set_startup_time (Some time_ms) d in
    let d := if click_lock d then set_click_lock false d else d in
    let d := set_target_engaged false d in
    set_line_moving_history [] d
  else set_running false d.

(** [_instant_click], run to completion. *)
Definition instant_click (d : DigTool) : DigTool :=
  if negb (running d) then d else set_click_count (click_count d + 1)%Z d.

(** Modelled from the spec: [perform_click_action] of [core.automation] is
    not in [main.py]; it receives [self.click_lock] and, by the spec's
    ClickLock entry, releases it when the click action completes.
    [perform_click] then counts the click. *)
Definition perform_click (d : DigTool) : DigTool :=
  let d := set_click_lock false d in
  set_click_count (click_count d + 1)%Z d.

Definition max_click_threads : nat := 3.

Definition perform_instant_click (d : DigTool) (f : Frame)
  : DigTool * list Action :=
  let d := set_click_thread_pool (filter (is_alive f) (click_thread_pool d)) d in
  if (length (click_thread_pool d) <? max_click_threads)%nat then
    (set_click_thread_pool (click_thread_pool d ++ [new_thread f]) d,
     [StartInstantClick (new_thread f)])
  else (d, []).

(** ** Zone selection, colour lock and smoothing *)

Definition game_fps (f : Frame) : Q := Py.max (target_fps f) 1.

(** The largest contour, if it passes the size filter (lines 1517-1533). *)
Definition zone_candidate (f : Frame) : option Contour :=
  match contour f with
  | None => None
  | Some c =>
      let max_zone_width :=
        inject_Z (width f) * (max_zone_width_percent f / 100) in
      let min_zone_height :=
        inject_Z (height_80 f) * (min_zone_height_percent f / 100) in
      if Py.ltb (zone_min_width f) (inject_Z (w_temp c))
         && Py.ltb (inject_Z (w_temp c)) max_zone_width
         && Py.leb min_zone_height (inject_Z (h_temp c))
      then Some c else None
  end.

(** [(raw_zone_x, raw_zone_w)], taking the colour lock on the way (lines
    1534-1547). *)
Definition select_zone (d : DigTool) (f : Frame) : DigTool * option (Z * Z) :=
  match zone_candidate f with
  | None => (d, None)
  | Some c =>
      let d :=
        if is_color_locked d then d else
        let d := set_locked_color_hsv (Some (mean_hsv c)) d in
        let d := set_is_color_locked true d in
        let d := set_locked_color_hex (Some (mean_hex c)) d in
        set_is_low_sat_lock (Py.ltb (snd (fst (mean_hsv c))) 25) d in
      (d, Some (x_temp c, w_temp c))
  end.

Definition adaptive_smoothing (zone_smoothing_factor : Q) (width : Z)
  (position_change width_change : Q) : Q :=
  if Py.leb 1 zone_smoothing_factor then 1
  else if Py.leb zone_smoothing_factor (1 # 100) then zone_smoothing_factor
  else
    let max_change_threshold := inject_Z width * (1 # 10) in
    if Py.ltb max_change_threshold position_change
       || Py.ltb max_change_threshold width_change
    then Py.min (zone_smoothing_factor + (1 # 10)) 1
    else zone_smoothing_factor.

Definition smooth_zone (d : DigTool) (f : Frame) (raw : option (Z * Z))
  : result DigTool :=
  match raw with
  | Some (raw_zone_x, raw_zone_w) =>
      let d := set_frames_since_last_zone_detection 0%Z d in
      match smoothed_zone_x d with
      | None =>
          Ok (set_smoothed_zone_w (Some (inject_Z raw_zone_w))
                (set_smoothed_zone_x (Some (inject_Z raw_zone_x)) d))
      | Some sx =>
          match smoothed_zone_w d with
          | None => Raise TypeError
          | Some sw =>
              let position_change := Qabs (inject_Z raw_zone_x - sx) in
              let width_change := Qabs (inject_Z raw_zone_w - sw) in
              let a := adaptive_smoothing (zone_smoothing_factor f) (width f)
                         position_change width_change in
              let d := set_smoothed_zone_x
                         (Some (a * inject_Z raw_zone_x + (1 - a) * sx)) d in
              Ok (set_smoothed_zone_w
                    (Some (a * inject_Z raw_zone_w + (1 - a) * sw)) d)
          end
      end
  | None =>
      Ok (set_frames_since_last_zone_detection
            (frames_since_last_zone_detection d + 1)%Z d)
  end.

Definition zone_timeout_frames (f : Frame) : Z :=
  Z.max (Py.int (game_fps f * (167 # 1000))) 5.

Definition release_color_lock (d : DigTool) (f : Frame) : DigTool :=
  if (frames_since_last_zone_detection d >? zone_timeout_frames f)%Z then
    let d := set_is_color_locked false d in
    let d := set_locked_color_hsv None d in
    let d := set_locked_color_hex None d in
    set_smoothed_zone_x None d
  else d.

(** Lines 1516-1593 of one iteration. *)
Definition track_zone (d : DigTool) (f : Frame) : result DigTool :=
  let '(d, raw) := select_zone d f in
  d <- smooth_zone d f raw ;;
  Ok (release_color_lock d f).

Fixpoint track_zone_frames (d : DigTool) (fs : list Frame) : result DigTool :=
  match fs with
  | [] => Ok d
  | f :: fs => d <- track_zone d f ;; track_zone_frames d fs
  end.

(** [(sweet_spot_center, sweet_spot_start, sweet_spot_end)], or [None]. *)
Definition sweet_spot (d : DigTool) (f : Frame) : result (option (Q * Q * Q)) :=
  match smoothed_zone_x d with
  | None => Ok None
  | Some sx =>
      match smoothed_zone_w d with
      | None => Raise TypeError
      | Some sw =>
          let sweet_spot_center := sx + sw / 2 in
          let dynamic_sweet_spot_width_percent :=
            dynamic_sweet_spot_width f / 100 in
          let sweet_spot_width := sw * dynamic_sweet_spot_width_percent in
          Ok (Some (sweet_spot_center,
                    sweet_spot_center - sweet_spot_width / 2,
                    sweet_spot_center + sweet_spot_width / 2))
      end
  end.

(** ** Auto-walk state machine (lines 1634-1803) *)

Definition max_wait_time : Q := 5000.
Definition post_dig_delay : Q := 2000.
Definition max_click_retries : Z := 2.

Definition clear_stale_pending_sell (l : Locals) (f : Frame) : Locals :=
  if pending_auto_sell l && Py.ltb 0 (dig_completed_time l) then
    let time_since_pending := current_time_ms f - dig_completed_time l in
    if Py.ltb 10000 time_since_pending
    then set_dig_completed_time 0 (set_pending_auto_sell false l)
    else l
  else l.

Definition step_move (d : DigTool) (l : Locals) (f : Frame)
  : DigTool * Locals * list Action :=
  let now := current_time_ms f in
  if pending_auto_sell l
     && Py.ltb 0 (dig_completed_time l)
     && Py.leb post_dig_delay (now - dig_completed_time l)
  then
    if auto_sell_ready f
    then (d, set_dig_completed_time 0 (set_pending_auto_sell false l),
          [StartAutoSell])
    else (d, set_dig_completed_time 0 (set_pending_auto_sell false l), [])
  else if negb (is_selling f) && negb (pending_auto_sell l) then
    if negb (walk_thread_alive f) then
      let direction := next_walk_direction f in
      let l := set_current_step_click_enabled
                 match direction with
                 | DictStep _ _ (Some click) => click
                 | _ => true
                 end l in
      let l := set_auto_walk_state click_to_start l in
      let walk_duration :=
        match direction with
        | DictStep _ (Some duration) _ => duration
        | _ => walk_duration f
        end in
      (d, set_move_completed_time (now + walk_duration + 300) l,
       [StartWalk direction])
    else (d, l, [])
  else (d, l, []).

Definition step_click_to_start (d : DigTool) (l : Locals) (f : Frame)
  : DigTool * Locals * list Action :=
  let now := current_time_ms f in
  if Py.leb (move_completed_time l) now && negb (is_selling f) then
    if current_step_click_enabled l then
      if negb (click_lock d) then
        (set_click_lock true d,
         set_wait_for_target_start now (set_auto_walk_state wait_for_target l),
         [StartClick start_click (click_delay l)])
      else (d, l, [])
    else (d, set_auto_walk_state move l, [])
  else (d, l, []).

Definition step_wait_for_target (d : DigTool) (l : Locals) (f : Frame)
  : DigTool * Locals * list Action :=
  let now := current_time_ms f in
  if negb (is_selling f) then
    if target_engaged d then
      (d, set_click_retry_count 0%Z
            (set_target_disengaged_time 0 (set_auto_walk_state digging l)), [])
    else if Py.ltb max_wait_time (now - wait_for_target_start l) then
      if (click_retry_count l <? max_click_retries)%Z then
        let l := set_click_retry_count (click_retry_count l + 1)%Z l in
        if negb (click_lock d) then
          (set_click_lock true d, set_wait_for_target_start now l,
           [StartClick retry_click 0])
        else (d, l, [])
      else (d, set_auto_walk_state move (set_click_retry_count 0%Z l), [])
    else (d, l, [])
  else (d, l, []).

Definition step_digging (d : DigTool) (l : Locals) (f : Frame)
  : DigTool * Locals * list Action :=
  if negb (target_engaged d) then
    if Py.eqb (target_disengaged_time l) 0
    then (d, set_target_disengaged_time (current_time_ms f) l, [])
    else (d, l, [])
  else (d, set_target_disengaged_time 0 l, []).

Definition auto_walk_step (d : DigTool) (l : Locals) (f : Frame)
  : DigTool * Locals * list Action :=
  if running d && auto_walk_enabled f && negb (is_selling f) then
    match auto_walk_state l with
    | move => step_move d l f
    | click_to_start => step_click_to_start d l f
    | wait_for_target => step_wait_for_target d l f
    | digging => step_digging d l f
    end
  else (d, l, []).

(** Lines 1922-1953. *)
Definition complete_dig (d : DigTool) (l : Locals) (f : Frame)
  : result (DigTool * Locals) :=
  if auto_walk_enabled f
     && AutoWalkState_eqb (auto_walk_state l) digging
     && Py.ltb 0 (target_disengaged_time l)
     && Py.ltb 1500 (current_time_ms f - target_disengaged_time l)
  then
    let d := set_dig_count (dig_count d + 1)%Z d in
    let l := set_dig_completed_time (current_time_ms f) l in
    l <- (if auto_sell_enabled f && sell_button_set f && (0 <? dig_count d)%Z
          then
            if (sell_every_x_digs f =? 0)%Z then Raise ZeroDivisionError
            else if (dig_count d mod sell_every_x_digs f =? 0)%Z
                 then Ok (set_pending_auto_sell true l)
                 else Ok l
          else Ok l) ;;
    Ok (d, set_auto_walk_state move l)
  else Ok (d, l).

Definition should_allow_clicking (d : DigTool) (l : Locals) (f : Frame) : bool :=
  if auto_walk_enabled f then
    AutoWalkState_eqb (auto_walk_state l) digging
    && negb (is_selling f)
    && target_engaged d
  else target_engaged d.

(** ** Click scheduler (lines 1815-1920) *)

Section Loop.

(** Python's float [**]. *)
Variable float_pow : Q -> Q -> Q.

(** [(should_click, click_delay, prediction_used, confidence)] after the
    prediction block, lines 1838-1893. *)
Definition predict_click (f : Frame)
  (sweet_spot_center sweet_spot_start sweet_spot_end : Q)
  : result (bool * Q * bool * Q) :=
  let line := inject_Z (line_pos f) in
  if prediction_enabled f && negb (line_pos f =? -1)%Z then
    let system_latency := cached_system_latency f / 1000 in
    let is_moving_towards :=
      (Py.ltb line sweet_spot_center && Py.ltb 0 (velocity f))
      || (Py.ltb sweet_spot_center line && Py.ltb (velocity f) 0) in
    if is_moving_towards then
      let '(predicted_pos, prediction_time) := predict_position f in
      if Py.ltb 0 prediction_time then
        let distance_to_center := Qabs (predicted_pos - sweet_spot_center) in
        let sweet_spot_radius := (sweet_spot_end - sweet_spot_start) / 2 in
        if Py.leb distance_to_center sweet_spot_radius then
          if Py.eqb sweet_spot_radius 0 then Raise ZeroDivisionError else
          let base_confidence :=
            Py.max 0 (1 - distance_to_center / sweet_spot_radius) in
          let confidence := base_confidence * prediction_confidence f in
          let fps_adjusted_threshold :=
            prediction_confidence_threshold f
            * float_pow (game_fps f / 120) (15 # 100) in
          if Py.leb fps_adjusted_threshold confidence then
            let fps_latency_adjustment :=
              system_latency * (120 / game_fps f) * (8 # 10) in
            let sleep_duration := prediction_time - fps_latency_adjustment in
            if Py.ltb 0 sleep_duration
            then Ok (true, sleep_duration, true, confidence)
            else Ok (false, 0, false, confidence)
          else Ok (false, 0, false, confidence)
        else Ok (false, 0, false, 0)
      else Ok (false, 0, false, 0)
    else Ok (false, 0, false, 0)
  else Ok (false, 0, false, 0).

Definition click_decision (f : Frame)
  (sweet_spot_center sweet_spot_start sweet_spot_end : Q)
  : result (bool * Q * bool * Q) :=
  let line := inject_Z (line_pos f) in
  let line_in_sweet_spot :=
    Py.leb sweet_spot_start line && Py.leb line sweet_spot_end in
  '(should_click, click_delay, prediction_used, confidence) <-
    predict_click f sweet_spot_center sweet_spot_start sweet_spot_end ;;
  if negb should_click && line_in_sweet_spot
  then Ok (true, click_delay, prediction_used, 1)
  else Ok (should_click, click_delay, prediction_used, confidence).

Definition is_past_startup_grace (d : DigTool) (f : Frame) : bool :=
  match startup_time d with
  | None => true
  | Some t => Py.ltb 100 (current_time_ms f - t)
  end.

Definition click_scheduler (d : DigTool) (l : Locals) (f : Frame)
  (sweet : option (Q * Q * Q)) (allow : bool)
  : result (DigTool * Locals * list Action) :=
  match sweet with
  | None => Ok (d, l, [])
  | Some (sweet_spot_center, sweet_spot_start, sweet_spot_end) =>
      if running d
         && allow
         && Py.leb (blind_until d) (current_time_ms f)
         && negb (click_lock d)
         && is_past_startup_grace d f
      then
        '(should_click, delay, prediction_used, confidence) <-
          click_decision f sweet_spot_center sweet_spot_start sweet_spot_end ;;
        let l := set_click_delay delay l in
        if should_click then
          let shot := SaveDebugScreenshot prediction_used confidence in
          let d := set_blind_until
                     (current_time_ms f + post_click_blindness f) d in
          if Py.eqb delay 0 then
            let '(d, started) := perform_instant_click d f in
            Ok (d, l, shot :: started)
          else
            Ok (set_click_lock true d, l,
                [shot; StartClick predictive_click delay])
        else Ok (d, l, [])
      else Ok (d, l, [])
  end.

(** ** One processed iteration *)

Definition iteration (d : DigTool) (l : Locals) (f : Frame)
  : result (DigTool * Locals * list Action) :=
  d <- track_zone d f ;;
  let '(d, engaged) := check_target_engagement d (line_pos f) (game_fps f) in
  let d := set_target_engaged engaged d in
  sweet <- sweet_spot d f ;;
  let l := clear_stale_pending_sell l f in
  let '(d, l, walk_actions) := auto_walk_step d l f in
  '(d, l, click_actions) <-
    click_scheduler d l f sweet (should_allow_clicking d l f) ;;
  '(d, l) <- complete_dig d l f ;;
  Ok (d, l, walk_actions ++ click_actions).

(** ** The loop among its click threads *)

Inductive Event :=
| Iterate (f : Frame)
| ClickDone
| InstantClickDone.

(** [in_flight] counts the started [perform_click] threads that have not
    finished; [journal] lists the processed frames with what they started,
    oldest first. *)
Record System := {
  self : DigTool;
  locals : Locals;
  in_flight : nat;
  journal : list (Frame * list Action)
}.

Definition is_start_click (a : Action) : bool :=
  match a with StartClick _ _ => true | _ => false end.

Definition is_click (a : Action) : bool :=
  match a with StartClick _ _ | StartInstantClick _ => true | _ => false end.

Definition is_scheduler_click (a : Action) : bool :=
  match a with
  | StartClick predictive_click _ | StartInstantClick _ => true
  | _ => false
  end.

Definition system_step (s : System) (e : Event) : result System :=
  match e with
  | Iterate f =>
      '(d, l, started) <- iteration (self s) (locals s) f ;;
      Ok {| self := d; locals := l;
            in_flight := in_flight s + List.length (filter is_start_click started);
            journal := journal s ++ [(f, started)] |}
  | ClickDone =>
      match in_flight s with
      | O => Ok s
      | S n => Ok {| self := perform_click (self s); locals := locals s;
                     in_flight := n; journal := journal s |}
      end
  | InstantClickDone =>
      Ok {| self := instant_click (self s); locals := locals s;
            in_flight := in_flight s; journal := journal s |}
  end.

Fixpoint system_run (s : System) (es : list Event) : result System :=
  match es with
  | [] => Ok s
  | e :: es => s <- system_step s e ;; system_run s es
  end.

End Loop.



Definition has_scheduler_click (started : list Action) : bool :=
  existsb is_scheduler_click started.

Definition has_click (started : list Action) : bool :=
  existsb is_click started.

(** The frame clocks never run backwards. *)
Definition clock_ordered (fs : list Frame) : Prop :=
  StronglySorted (fun f g => current_time_ms f <= current_time_ms g) fs.

(** The frames processed along a list of events. *)
Definition frames_of (es : list Event) : list Frame :=
  flat_map (fun e => match e with Iterate f => [f] | _ => [] end) es.

(** What a run so far guarantees about its scheduler clicks: they are
    spaced by the blind period, and each deadline is covered by the current
    [blind_until] or by the clock of a later frame. *)
Definition blind_invariant (s : System) : Prop :=
  (forall i j fi ai fj aj,
      (i < j)%nat ->
      nth_error (journal s) i = Some (fi, ai) ->
      nth_error (journal s) j = Some (fj, aj) ->
      has_scheduler_click ai = true ->
      has_scheduler_click aj = true ->
      current_time_ms fi + post_click_blindness fi <= current_time_ms fj)
  /\ (forall fi ai,
      In (fi, ai) (journal s) ->
      has_scheduler_click ai = true ->
      current_time_ms fi + post_click_blindness fi <= blind_until (self s)
      \/ exists g ag, In (g, ag) (journal s)
                      /\ current_time_ms fi + post_click_blindness fi
                         <= current_time_ms g).

(** The fields of [self] outside the zone tracker. *)
Definition same_outside_zone (d d' : DigTool) : Prop :=
  running d' = running d
  /\ click_count d' = click_count d
  /\ dig_count d' = dig_count d
  /\ click_lock d' = click_lock d
  /\ blind_until d' = blind_until d
  /\ target_engaged d' = target_engaged d
  /\ line_moving_history d' = line_moving_history d
  /\ click_thread_pool d' = click_thread_pool d
  /\ startup_time d' = startup_time d.

(** ** Concrete states and frames used by the examples *)

(** The attributes as [__init__] leaves them, and the locals as
    [run_main_loop] initialises them. *)
Definition init_DigTool : DigTool := {|
  running := false; click_count := 0; dig_count := 0; click_lock := false;
  blind_until := 0; frames_since_last_zone_detection := 0;
  smoothed_zone_x := None; smoothed_zone_w := None;
  is_color_locked := false; locked_color_hsv := None;
  locked_color_hex := None; is_low_sat_lock := false;
  target_engaged := false; line_moving_history := [];
  click_thread_pool := []; startup_time := None |}.

Definition init_Locals : Locals := {|
  auto_walk_state := move; move_completed_time := 0;
  wait_for_target_start := 0; current_step_click_enabled := true;
  dig_completed_time := 0; target_disengaged_time := 0;
  pending_auto_sell := false; click_retry_count := 0; click_delay := 0 |}.

(** The examples run at a target of 120 fps, where the base of the power in
    the confidence threshold is [1.0] and [1.0 ** 0.15 = 1.0]: [unit_pow] is
    float [**] at that base. *)
Definition unit_pow (x y : Q) : Q := 1.

(** A frame at clock [t] ms with line position [line] and largest contour
    [c]: 800 x 200 px region, auto-walk off, prediction off, every thread
    still alive. *)
Definition frame_at (fps t : Q) (line : Z) (c : option Contour) : Frame := {|
  current_time_ms := t;
  target_fps := fps; zone_min_width := 30; max_zone_width_percent := 80;
  min_zone_height_percent := 100; zone_smoothing_factor := 1;
  auto_walk_enabled := false; walk_duration := 500;
  post_click_blindness := 50; prediction_enabled := false;
  prediction_confidence_threshold := 8 # 10;
  auto_sell_enabled := false; sell_every_x_digs := 10;
  width := 800; height_80 := 160; line_pos := line; contour := c;
  velocity := 0; dynamic_sweet_spot_width := 50;
  predict_position := (0, 0); prediction_confidence := 0;
  cached_system_latency := 10;
  is_selling := false; auto_sell_ready := false; walk_thread_alive := false;
  next_walk_direction := KeyStep "w"%string; sell_button_set := false;
  is_alive := fun _ => true; new_thread := 0 |}.

Definition still_frame : Q -> Z -> option Contour -> Frame := frame_at 120.

(** A near-grey zone 40 px wide at column 80, and a saturated one. *)
Definition grey_zone : Contour := {|
  x_temp := 80; w_temp := 40; h_temp := 160;
  mean_hsv := (0, 10, 200); mean_hex := "#c8c8c8" |}.

Definition green_zone : Contour := {|
  x_temp := 80; w_temp := 40; h_temp := 160;
  mean_hsv := (60, 255, 255); mean_hex := "#00ff00" |}.

(** [n] frames at 60 fps, 16 ms apart from clock [t], with no contour. *)
Fixpoint empty_frames (n : nat) (t : Q) : list Frame :=
  match n with
  | O => []
  | S n => frame_at 60 t (-1) None :: empty_frames n (t + 16)
  end.

(** The tracker right after it locked onto [grey_zone] at 60 fps. *)
Definition locked_on_grey : result DigTool :=
  track_zone init_DigTool (frame_at 60 1000 (-1) (Some grey_zone)).

Definition with_history (history : list Z) : DigTool :=
  set_line_moving_history history init_DigTool.

(** A tracker whose smoothed zone is set to column 80, width 40. *)
Definition tracking_80_40 : DigTool :=
  set_smoothed_zone_w (Some 40) (set_smoothed_zone_x (Some 80) init_DigTool).

Definition locked_grey : DigTool :=
  match locked_on_grey with
  | Ok d => d
  | Raise _ => init_DigTool
  end.

(** [f] with prediction enabled and the velocity calculator's answers. *)
Definition predicting (v : Q) (prediction : Q * Q) (conf : Q) (f : Frame) : Frame :=
  {| current_time_ms := current_time_ms f; target_fps := target_fps f;
     zone_min_width := zone_min_width f; max_zone_width_percent :=
     max_zone_width_percent f; min_zone_height_percent :=
     min_zone_height_percent f; zone_smoothing_factor := zone_smoothing_factor
     f; auto_walk_enabled := auto_walk_enabled f; walk_duration :=
     walk_duration f; post_click_blindness := post_click_blindness f;
     prediction_enabled := true; prediction_confidence_threshold :=
     prediction_confidence_threshold f; auto_sell_enabled := auto_sell_enabled
     f; sell_every_x_digs := sell_every_x_digs f; width := width f; height_80
     := height_80 f; line_pos := line_pos f; contour := contour f; velocity :=
     v; dynamic_sweet_spot_width := dynamic_sweet_spot_width f;
     predict_position := prediction; prediction_confidence := conf;
     cached_system_latency := cached_system_latency f; is_selling :=
     is_selling f; auto_sell_ready := auto_sell_ready f; walk_thread_alive :=
     walk_thread_alive f; next_walk_direction := next_walk_direction f;
     sell_button_set := sell_button_set f; is_alive := is_alive f; new_thread
     := new_thread f |}.

(** [f] with auto-walk enabled and [direction] next in the walk pattern. *)
Definition auto_walking (direction : Direction) (f : Frame) : Frame :=
  {| current_time_ms := current_time_ms f; target_fps := target_fps f;
     zone_min_width := zone_min_width f; max_zone_width_percent :=
     max_zone_width_percent f; min_zone_height_percent :=
     min_zone_height_percent f; zone_smoothing_factor := zone_smoothing_factor
     f; auto_walk_enabled := true; walk_duration := walk_duration f;
     post_click_blindness := post_click_blindness f; prediction_enabled :=
     prediction_enabled f; prediction_confidence_threshold :=
     prediction_confidence_threshold f; auto_sell_enabled := auto_sell_enabled
     f; sell_every_x_digs := sell_every_x_digs f; width := width f; height_80
     := height_80 f; line_pos := line_pos f; contour := contour f; velocity :=
     velocity f; dynamic_sweet_spot_width := dynamic_sweet_spot_width f;
     predict_position := predict_position f; prediction_confidence :=
     prediction_confidence f; cached_system_latency := cached_system_latency
     f; is_selling := is_selling f; auto_sell_ready := auto_sell_ready f;
     walk_thread_alive := walk_thread_alive f; next_walk_direction :=
     direction; sell_button_set := sell_button_set f; is_alive := is_alive f;
     new_thread := new_thread f |}.

(** [f] where the next thread object is [tid]. *)
Definition with_new_thread (tid : nat) (f : Frame) : Frame :=
  {| current_time_ms := current_time_ms f; target_fps := target_fps f;
     zone_min_width := zone_min_width f; max_zone_width_percent :=
     max_zone_width_percent f; min_zone_height_percent :=
     min_zone_height_percent f; zone_smoothing_factor := zone_smoothing_factor
     f; auto_walk_enabled := auto_walk_enabled f; walk_duration :=
     walk_duration f; post_click_blindness := post_click_blindness f;
     prediction_enabled := prediction_enabled f;
     prediction_confidence_threshold := prediction_confidence_threshold f;
     auto_sell_enabled := auto_sell_enabled f; sell_every_x_digs :=
     sell_every_x_digs f; width := width f; height_80 := height_80 f; line_pos
     := line_pos f; contour := contour f; velocity := velocity f;
     dynamic_sweet_spot_width := dynamic_sweet_spot_width f; predict_position
     := predict_position f; prediction_confidence := prediction_confidence f;
     cached_system_latency := cached_system_latency f; is_selling :=
     is_selling f; auto_sell_ready := auto_sell_ready f; walk_thread_alive :=
     walk_thread_alive f; next_walk_direction := next_walk_direction f;
     sell_button_set := sell_button_set f; is_alive := is_alive f; new_thread
     := tid |}.

(** [f] with [post_click_blindness = ms]. *)
Definition with_blindness (ms : Q) (f : Frame) : Frame :=
  {| current_time_ms := current_time_ms f; target_fps := target_fps f;
     zone_min_width := zone_min_width f; max_zone_width_percent :=
     max_zone_width_percent f; min_zone_height_percent :=
     min_zone_height_percent f; zone_smoothing_factor := zone_smoothing_factor
     f; auto_walk_enabled := auto_walk_enabled f; walk_duration :=
     walk_duration f; post_click_blindness := ms; prediction_enabled :=
     prediction_enabled f; prediction_confidence_threshold :=
     prediction_confidence_threshold f; auto_sell_enabled := auto_sell_enabled
     f; sell_every_x_digs := sell_every_x_digs f; width := width f; height_80
     := height_80 f; line_pos := line_pos f; contour := contour f; velocity :=
     velocity f; dynamic_sweet_spot_width := dynamic_sweet_spot_width f;
     predict_position := predict_position f; prediction_confidence :=
     prediction_confidence f; cached_system_latency := cached_system_latency
     f; is_selling := is_selling f; auto_sell_ready := auto_sell_ready f;
     walk_thread_alive := walk_thread_alive f; next_walk_direction :=
     next_walk_direction f; sell_button_set := sell_button_set f; is_alive :=
     is_alive f; new_thread := new_thread f |}.


(** Ten samples of a line sweeping right, then the bot running with the
    zone tracked at column 80, width 40, locked on [green_zone]. *)
Definition sweep : list Z := [10; 20; 30; 40; 50; 60; 70; 80; 85; 90]%Z.

Definition hunting : DigTool :=
  set_running true
    (set_line_moving_history sweep
       (set_is_color_locked true
          (set_locked_color_hsv (Some (mean_hsv green_zone))
             (set_locked_color_hex (Some (mean_hex green_zone))
                tracking_80_40)))).

(** The line at column 95 moving right at 100 px/s towards the centre 100
    of the sweet spot [90, 110]; the velocity calculator predicts arrival at
    the centre in 50 ms with stability 0.9. *)
Definition approach_frame : Frame :=
  predicting 100 (100, 1 # 20) (9 # 10)
    (still_frame 5000 95 (Some green_zone)).

(** The line resting in the sweet spot at column 100. *)
Definition centred_frame (t : Q) (tid : nat) : Frame :=
  with_new_thread tid (with_blindness 0 (still_frame t 100 (Some green_zone))).

(** Auto-walk waiting for the target since clock 1000, after the start
    click, and two frames in which the wait window has run out; the click
    started by the first has finished before the second. *)
Definition waiting : Locals :=
  set_wait_for_target_start 1000 (set_auto_walk_state wait_for_target init_Locals).

Definition timeout_frame (t : Q) : Frame :=
  auto_walking (KeyStep "w") (still_frame t (-1) None).

Definition after_two_timeouts : DigTool * Locals * list Action :=
  let '(d1, l1, a1) :=
    auto_walk_step (set_running true init_DigTool) waiting (timeout_frame 6001) in
  let '(d2, l2, a2) := auto_walk_step (perform_click d1) l1 (timeout_frame 11002) in
  (d2, l2, a1 ++ a2).


(** Digging with the bot running; the line is lost from clock 20000 on. *)
Definition digging_now : Locals := set_auto_walk_state digging init_Locals.

Definition lost_line_frame (t : Q) : Frame :=
  auto_walking (KeyStep "w") (still_frame t (-1) None).



(** Auto-walk about to click at the end of a walk step, with the line already
    sweeping: the start click at clock 5000 finishes, and at clock 5016 the
    line rests in the sweet spot. *)
Definition about_to_click : System :=
  {| self := hunting;
     locals := set_auto_walk_state click_to_start init_Locals;
     in_flight := 0; journal := [] |}.

Definition start_then_direct : list Event :=
  [Iterate (auto_walking (KeyStep "w") (still_frame 5000 95 (Some green_zone)));
   ClickDone;
   Iterate (auto_walking (KeyStep "w") (still_frame 5016 100 (Some green_zone)))].

(** The line resting in the sweet spot in two frames one millisecond apart,
    with no blind period configured and both click threads still alive. *)
Definition ready_to_click : System :=
  {| self := hunting; locals := init_Locals; in_flight := 0; journal := [] |}.

Definition two_direct_clicks : list Event :=
  [Iterate (centred_frame 5000 1); Iterate (centred_frame 5001 2)].

(** The same two frames 50 ms apart with the default blind period. *)
Definition spaced_clicks : list Event :=
  [Iterate (still_frame 5000 100 (Some green_zone));
   Iterate (still_frame 5050 100 (Some green_zone))].

(** ** Invariants of the loop state *)



(** The fields of [self] that belong to the zone tracker. *)
Definition same_zone (d d' : DigTool) : Prop :=
  frames_since_last_zone_detection d' = frames_since_last_zone_detection d
  /\ smoothed_zone_x d' = smoothed_zone_x d
  /\ smoothed_zone_w d' = smoothed_zone_w d
  /\ is_color_locked d' = is_color_locked d
  /\ locked_color_hsv d' = locked_color_hsv d
  /\ locked_color_hex d' = locked_color_hex d
  /\ is_low_sat_lock d' = is_low_sat_lock d.

(** [f] with auto-sell enabled every [every] digs and a sell button set. *)
Definition with_auto_sell (every : Z) (f : Frame) : Frame :=
  {| current_time_ms := current_time_ms f; target_fps := target_fps f;
     zone_min_width := zone_min_width f; max_zone_width_percent :=
     max_zone_width_percent f; min_zone_height_percent :=
     min_zone_height_percent f; zone_smoothing_factor := zone_smoothing_factor
     f; auto_walk_enabled := auto_walk_enabled f; walk_duration :=
     walk_duration f; post_click_blindness := post_click_blindness f;
     prediction_enabled := prediction_enabled f;
     prediction_confidence_threshold := prediction_confidence_threshold f;
     auto_sell_enabled := true; sell_every_x_digs := every; width := width f;
     height_80 := height_80 f; line_pos := line_pos f; contour := contour f;
     velocity := velocity f; dynamic_sweet_spot_width :=
     dynamic_sweet_spot_width f; predict_position := predict_position f;
     prediction_confidence := prediction_confidence f; cached_system_latency
     := cached_system_latency f; is_selling := is_selling f; auto_sell_ready
     := auto_sell_ready f; walk_thread_alive := walk_thread_alive f;
     next_walk_direction := next_walk_direction f; sell_button_set := true;
     is_alive := is_alive f; new_thread := new_thread f |}.

(** Nine digs done, digging with the line lost since clock 18000; and a sale
    left pending since clock 1000. *)
Definition ninth_dig : DigTool := set_dig_count 9%Z hunting.

Definition lost_since_18000 : Locals :=
  set_target_disengaged_time 18000 digging_now.

Definition sale_pending_since_1000 : Locals :=
  set_dig_completed_time 1000 (set_pending_auto_sell true init_Locals).

(** ** The movement history as a window *)



(** ** The latency cache (lines 252-271 and 2032-2061) *)

(** The three attributes behind [get_cached_system_latency]; [None] is an
    attribute that has not been set ([hasattr] answers [False]). *)
Record LatencyCache := {
  measured_latency : option Q;
  latency_measurement_time : option Q;
  cached_latency : option Q
}.

Definition set_cached_latency (v : Q) (s : LatencyCache) : LatencyCache :=
  {| measured_latency := measured_latency s;
     latency_measurement_time := latency_measurement_time s;
     cached_latency := Some v |}.

(** [DigTool.measure_system_latency].  [now] and [after] are the readings of
    [time.time()] in the guard and after the measurement; [external] is the
    outcome of [utils.system_utils.measure_system_latency].  The state is
    returned beside the outcome, since a caller may catch the exception. *)
Definition measure_system_latency (s : LatencyCache) (now after : Q)
  (external : Py.result Q) : Py.result Q * LatencyCache :=
  let measure :=
    match external with
    | Py.Ok v =>
        (Py.Ok v,
         {| measured_latency := Some v;
            latency_measurement_time := Some after;
            cached_latency := cached_latency s |})
    | Py.Raise e => (Py.Raise e, s)
    end in
  match measured_latency s, latency_measurement_time s with
  | Some measured, Some t =>
      if Py.ltb (now - t) 30 then (Py.Ok measured, s) else measure
  | _, _ => measure
  end.

Definition force_latency_remeasurement (s : LatencyCache) (now after : Q)
  (external : Py.result Q) : Py.result Q * LatencyCache :=
  let s :=
    match latency_measurement_time s with
    | Some _ =>
        {| measured_latency := measured_latency s;
           latency_measurement_time := Some 0;
           cached_latency := cached_latency s |}
    | None => s
    end in
  match measure_system_latency s now after external with
  | (Py.Ok new_latency, s) =>
      (Py.Ok new_latency, set_cached_latency new_latency s)
  | (Py.Raise e, s) => (Py.Raise e, s)
  end.

(** The [except Exception] clause catches whatever the measurement raises. *)
Definition perform_initial_latency_measurement (s : LatencyCache)
  (now after : Q) (external : Py.result Q) : Q * LatencyCache :=
  match measure_system_latency s now after external with
  | (Py.Ok measured, s) => (measured, set_cached_latency measured s)
  | (Py.Raise _, s) => (50, set_cached_latency 50 s)
  end.

(** [get_cached_system_latency] reads the clock in its own guard ([now]),
    lets [measure_system_latency] read it twice ([now_m], [after_m]) and
    reads it once more when it stores the time ([after]). *)
Definition get_cached_system_latency (s : LatencyCache)
  (now now_m after_m after : Q) (external : Py.result Q)
  : Py.result Q * LatencyCache :=
  let slow :=
    match cached_latency s, latency_measurement_time s with
    | Some cached, Some _ => (Py.Ok cached, s)
    | _, _ =>
        match measure_system_latency s now_m after_m external with
        | (Py.Ok measured, s) =>
            (Py.Ok measured,
             {| measured_latency := measured_latency s;
                latency_measurement_time := Some after;
                cached_latency := Some measured |})
        | (Py.Raise e, s) => (Py.Raise e, s)
        end
    end in
  match cached_latency s, latency_measurement_time s with
  | Some cached, Some t =>
      if Py.ltb (now - t) 300 then (Py.Ok cached, s) else slow
  | _, _ => slow
  end.

(** A new [DigTool]: none of the three attributes is set by [__init__]. *)
Definition no_latency : LatencyCache :=
  {| measured_latency := None; latency_measurement_time := None;
     cached_latency := None |}.

(** ** Milestone notifications (lines 791-816) *)

(** The four Tk variables the check reads. *)
Record MilestoneSettings := {
  webhook_url : string;
  include_screenshot_in_discord : bool;
  user_id : string;
  milestone_interval : Z
}.

(** The arguments of [send_milestone_notification]. *)
Record Milestone := {
  milestone_digs : Z;
  milestone_clicks : Z;
  milestone_user : option string;
  milestone_screenshot : bool
}.

(** The notification for the counters of [d]; an empty user id is sent as
    [None]. *)
Definition milestone_of (p : MilestoneSettings) (d : DigTool) : Milestone :=
  {| milestone_digs := dig_count d;
     milestone_clicks := click_count d;
     milestone_user :=
       if (user_id p =? EmptyString)%string then None else Some (user_id p);
     milestone_screenshot := include_screenshot_in_discord p |}.

(** [check_milestone_notifications] on [self.last_milestone_notification]:
    its new value and the notification thread started, if any. *)
Definition check_milestone_notifications (d : DigTool)
  (last_milestone_notification : Z) (p : MilestoneSettings)
  : Z * list Milestone :=
  if (webhook_url p =? EmptyString)%string || (milestone_interval p <=? 0)%Z
  then (last_milestone_notification, [])
  else
    if (0 <? dig_count d)%Z
       && (dig_count d mod milestone_interval p =? 0)%Z
       && negb (dig_count d =? last_milestone_notification)%Z
    then (dig_count d, [milestone_of p d])
    else (last_milestone_notification, []).

(** The check as the loop calls it, once after each counted dig (lines 1930
    and 1954): [ds] are the states of [self] at the successive calls. *)
Fixpoint milestones (last_milestone_notification : Z) (p : MilestoneSettings)
  (ds : list DigTool) : Z * list Milestone :=
  match ds with
  | [] => (last_milestone_notification, [])
  | d :: ds =>
      let '(last, sent) :=
        check_milestone_notifications d last_milestone_notification p in
      let '(last, more) := milestones last p ds in
      (last, sent ++ more)
  end.

(** The dig counts at the calls grow, as [self.dig_count += 1] before each
    call makes them. *)
Definition counting_up (ds : list DigTool) : Prop :=
  StronglySorted Z.lt (map dig_count ds).

(** [d] has a positive multiple of [k] digs. *)
Definition at_milestone (k : Z) (d : DigTool) : bool :=
  (0 <? dig_count d)%Z && (dig_count d mod k =? 0)%Z.

(** Notifications every second dig, and the first four digs of a run. *)
Definition every_second_dig : MilestoneSettings :=
  {| webhook_url := "https://discord.test/hook";
     include_screenshot_in_discord := false;
     user_id := EmptyString;
     milestone_interval := 2 |}.

Definition four_digs : list DigTool :=
  map (fun n => set_dig_count n init_DigTool) [1; 2; 3; 4]%Z.

(** * Properties *)

(** ** Python arithmetic *)

Lemma py_ltb_lt x y : Py.ltb x y = true <-> x < y.
Proof.
  unfold Py.ltb. rewrite negb_true_iff.
  split; intro H.
  - apply Qnot_le_lt. intro C. apply Qle_bool_iff in C. congruence.
  - destruct (Qle_bool y x) eqn:E; [|reflexivity].
    apply Qle_bool_iff in E. lra.
Qed.

Lemma py_ltb_ge x y : Py.ltb x y = false <-> y <= x.
Proof.
  unfold Py.ltb. rewrite negb_false_iff. apply Qle_bool_iff.
Qed.

Lemma py_leb_le x y : Py.leb x y = true <-> x <= y.
Proof. apply Qle_bool_iff. Qed.

Lemma py_leb_gt x y : Py.leb x y = false <-> y < x.
Proof.
  unfold Py.leb. split; intro H.
  - apply Qnot_le_lt. intro C. apply Qle_bool_iff in C. congruence.
  - destruct (Qle_bool x y) eqn:E; [|reflexivity].
    apply Qle_bool_iff in E. lra.
Qed.

Lemma py_eqb_eq x y : Py.eqb x y = true <-> x == y.
Proof. apply Qeq_bool_iff. Qed.

Lemma py_eqb_neq x y : Py.eqb x y = false <-> ~ x == y.
Proof.
  unfold Py.eqb. split.
  - apply Qeq_bool_neq.
  - intro H. destruct (Qeq_bool x y) eqn:E; [|reflexivity].
    apply Qeq_bool_iff in E. contradiction.
Qed.

Lemma min_list_spec ps : forall p,
  (In (Py.min_list p ps) (p :: ps)
   /\ forall q, In q (p :: ps) -> Py.min_list p ps <= q)%Z.
Proof.
  unfold Py.min_list.
  induction ps as [|a ps IH]; intro p; simpl.
  - split; [now left|]. intros q [<-|[]]. lia.
  - destruct (IH (Z.min p a)) as [Hin Hle]. split.
    + destruct Hin as [Hin|Hin]; [|now right; right].
      rewrite <- Hin. destruct (Z.min_spec p a) as [[_ ->]|[_ ->]]; auto.
    + intros q Hq.
      assert (fold_left Z.min ps (Z.min p a) <= Z.min p a)%Z
        by (apply Hle; now left).
      destruct Hq as [<-|[<-|Hq]]; [lia|lia|].
      apply Hle. now right.
Qed.

Lemma max_list_spec ps : forall p,
  (In (Py.max_list p ps) (p :: ps)
   /\ forall q, In q (p :: ps) -> q <= Py.max_list p ps)%Z.
Proof.
  unfold Py.max_list.
  induction ps as [|a ps IH]; intro p; simpl.
  - split; [now left|]. intros q [<-|[]]. lia.
  - destruct (IH (Z.max p a)) as [Hin Hle]. split.
    + destruct Hin as [Hin|Hin]; [|now right; right].
      rewrite <- Hin. destruct (Z.max_spec p a) as [[_ ->]|[_ ->]]; auto.
    + intros q Hq.
      assert (Z.max p a <= fold_left Z.max ps (Z.max p a))%Z
        by (apply Hle; now left).
      destruct Hq as [<-|[<-|Hq]]; [lia|lia|].
      apply Hle. now right.
Qed.

(** ** Target engagement *)

Lemma line_movement_length history line_pos fps :
  (List.length (fst (line_movement history line_pos fps))
   <= S (List.length history))%nat.
Proof.
  unfold line_movement.
  set (h := if (_ >? _)%Z then _ else _).
  assert (Hh : (List.length h <= S (List.length history))%nat).
  { subst h. destruct (_ >? _)%Z.
    - destruct history; simpl; [lia|].
      rewrite length_app. simpl. lia.
    - rewrite length_app. simpl. lia. }
  destruct (_ <? 10)%nat; [exact Hh|].
  destruct (valid_positions h); [exact Hh|].
  destruct (_ <? 5)%nat; exact Hh.
Qed.

Lemma line_movement_true history line_pos fps history' :
  line_movement history line_pos fps = (history', true) ->
  (10 <= List.length history')%nat
  /\ (5 <= List.length (valid_positions history'))%nat
  /\ exists lo hi,
       In lo (valid_positions history')
       /\ In hi (valid_positions history')
       /\ (forall p, In p (valid_positions history') -> lo <= p <= hi)%Z
       /\ (min_movement_threshold <= hi - lo)%Z.
Proof.
  unfold line_movement.
  set (h := if (_ >? _)%Z then _ else _).
  destruct (List.length h <? 10)%nat eqn:E10; [discriminate|].
  destruct (valid_positions h) as [|pos rest] eqn:Ev; [discriminate|].
  destruct (List.length (pos :: rest) <? 5)%nat eqn:E5; [discriminate|].
  intro H. injection H as <- Hr.
  apply Nat.ltb_ge in E10, E5. rewrite Ev.
  split; [exact E10|]. split; [exact E5|].
  destruct (min_list_spec rest pos) as [Hmi Hml].
  destruct (max_list_spec rest pos) as [Hxi Hxl].
  exists (Py.min_list pos rest), (Py.max_list pos rest).
  repeat split; auto.
  apply Z.geb_le in Hr. exact Hr.
Qed.

Lemma check_line_movement_history d line_pos fps :
  (List.length (line_moving_history (fst (check_line_movement d line_pos fps)))
   <= S (List.length (line_moving_history d)))%nat.
Proof.
  unfold check_line_movement.
  pose proof (line_movement_length (line_moving_history d) line_pos fps) as H.
  destruct (line_movement _ _ _) as [h m]. exact H.
Qed.

Lemma check_line_movement_true d line_pos fps d' :
  check_line_movement d line_pos fps = (d', true) ->
  (10 <= List.length (line_moving_history d'))%nat
  /\ (5 <= List.length (valid_positions (line_moving_history d')))%nat
  /\ exists lo hi,
       In lo (valid_positions (line_moving_history d'))
       /\ In hi (valid_positions (line_moving_history d'))
       /\ (forall p, In p (valid_positions (line_moving_history d')) ->
             lo <= p <= hi)%Z
       /\ (min_movement_threshold <= hi - lo)%Z.
Proof.
  unfold check_line_movement.
  destruct (line_movement _ _ _) as [h m] eqn:E. intro H.
  injection H as <- ->. simpl. eapply line_movement_true; eauto.
Qed.

(** ** What each part of an iteration leaves alone *)

Ltac break_if :=
  match goal with
  | |- context [if ?b then _ else _] => destruct b eqn:?
  | H : context [if ?b then _ else _] |- _ => destruct b eqn:?
  end.

Ltac break_match :=
  match goal with
  | |- context [match ?x with _ => _ end] => destruct x eqn:?
  | H : context [match ?x with _ => _ end] |- _ => destruct x eqn:?
  end.

Ltac fields :=
  cbn [running click_count dig_count click_lock blind_until
    frames_since_last_zone_detection smoothed_zone_x smoothed_zone_w
    is_color_locked locked_color_hsv locked_color_hex is_low_sat_lock
    target_engaged line_moving_history click_thread_pool startup_time
    auto_walk_state move_completed_time wait_for_target_start
    current_step_click_enabled dig_completed_time target_disengaged_time
    pending_auto_sell click_retry_count click_delay set_running
    set_click_count set_dig_count set_click_lock set_blind_until
    set_frames_since_last_zone_detection set_smoothed_zone_x
    set_smoothed_zone_w set_is_color_locked set_locked_color_hsv
    set_locked_color_hex set_is_low_sat_lock set_target_engaged
    set_line_moving_history set_click_thread_pool set_startup_time
    set_auto_walk_state set_move_completed_time set_wait_for_target_start
    set_current_step_click_enabled set_dig_completed_time
    set_target_disengaged_time set_pending_auto_sell set_click_retry_count
    set_click_delay self locals in_flight journal fst snd
    Py.bind] in *.

Ltac inv H := inversion H; subst; clear H.

Ltac ok_inv :=
  repeat match goal with
  | H : Ok _ = Ok _ |- _ => inv H
  | H : (_, _) = (_, _) |- _ => inv H
  | H : Raise _ = Ok _ |- _ => discriminate H
  end.

Lemma bind_ok {A B} (r : result A) (k : A -> result B) b :
  Py.bind r k = Ok b -> exists a, r = Ok a /\ k a = Ok b.
Proof. destruct r; simpl; [eauto|discriminate]. Qed.

Lemma same_outside_zone_refl d : same_outside_zone d d.
Proof. unfold same_outside_zone. tauto. Qed.

Lemma same_outside_zone_trans d1 d2 d3 :
  same_outside_zone d1 d2 -> same_outside_zone d2 d3 ->
  same_outside_zone d1 d3.
Proof. unfold same_outside_zone. intuition congruence. Qed.

Lemma select_zone_outside d f d' raw :
  select_zone d f = (d', raw) -> same_outside_zone d d'.
Proof.
  unfold select_zone, zone_candidate, same_outside_zone. intro H.
  repeat (break_match; ok_inv); fields; tauto.
Qed.

Lemma smooth_zone_outside d f raw d' :
  smooth_zone d f raw = Ok d' -> same_outside_zone d d'.
Proof.
  unfold smooth_zone, same_outside_zone. intro H.
  repeat (break_match; ok_inv); fields; tauto.
Qed.

Lemma release_color_lock_outside d f :
  same_outside_zone d (release_color_lock d f).
Proof.
  unfold release_color_lock, same_outside_zone.
  break_if; fields; tauto.
Qed.

Lemma track_zone_outside d f d' :
  track_zone d f = Ok d' -> same_outside_zone d d'.
Proof.
  unfold track_zone. destruct (select_zone d f) as [d1 raw] eqn:E1.
  intro H. apply bind_ok in H. destruct H as (d2 & E2 & H). ok_inv.
  eapply same_outside_zone_trans; [eapply select_zone_outside; eauto|].
  eapply same_outside_zone_trans; [eapply smooth_zone_outside; eauto|].
  apply release_color_lock_outside.
Qed.

Lemma check_target_engagement_fields d line_pos fps :
  forall d' e, check_target_engagement d line_pos fps = (d', e) ->
  d' = set_line_moving_history (line_moving_history d') d.
Proof.
  unfold check_target_engagement, check_line_movement. intros d' e H.
  repeat break_match; ok_inv; reflexivity.
Qed.

(** [auto_walk_step] touches [self] only to take the click lock, and only
    when it starts a click. *)
Lemma auto_walk_step_self d l f d' l' a :
  auto_walk_step d l f = (d', l', a) ->
  (d' = d /\ filter is_click a = [])
  \/ (click_lock d = false /\ d' = set_click_lock true d
      /\ exists site delay, a = [StartClick site delay]
           /\ site <> predictive_click).
Proof.
  unfold auto_walk_step, step_move, step_click_to_start,
    step_wait_for_target, step_digging.
  intro H.
  repeat (break_match; ok_inv); fields; auto;
    right; (split; [now apply negb_true_iff|]); split; auto;
    eexists _, _; (split; [reflexivity|discriminate]).
Qed.

Lemma perform_instant_click_self d f d' a :
  perform_instant_click d f = (d', a) ->
  d' = set_click_thread_pool (click_thread_pool d') d
  /\ ((List.length (click_thread_pool d) <= max_click_threads)%nat ->
      (List.length (click_thread_pool d') <= max_click_threads)%nat)
  /\ (a = [] \/ a = [StartInstantClick (new_thread f)]).
Proof.
  unfold perform_instant_click. fields. intro H.
  break_if; ok_inv; fields.
  - apply Nat.ltb_lt in Heqb. rewrite length_app. simpl.
    unfold max_click_threads in *. repeat split; auto. lia.
  - repeat split; auto. intro Hp.
    pose proof (filter_length_le (is_alive f) (click_thread_pool d)). lia.
Qed.

Section LoopFacts.

Variable float_pow : Q -> Q -> Q.

(** The scheduler either does nothing, or passed its gate and decided to
    click: it then sets the blind deadline and starts one thread at most. *)
Lemma click_scheduler_self d l f sweet allow d' l' a :
  click_scheduler float_pow d l f sweet allow = Ok (d', l', a) ->
  (d' = d /\ a = [])
  \/ (click_lock d = false
      /\ running d = true
      /\ allow = true
      /\ blind_until d <= current_time_ms f
      /\ exists prediction_used confidence,
           let shot := SaveDebugScreenshot prediction_used confidence in
           let d1 := set_blind_until
                       (current_time_ms f + post_click_blindness f) d in
           (exists delay, d' = set_click_lock true d1
                          /\ a = [shot; StartClick predictive_click delay])
           \/ (exists started, perform_instant_click d1 f = (d', started)
                               /\ a = shot :: started)).
Proof.
  unfold click_scheduler. intro H.
  destruct sweet as [[[c s] e]|]; [|ok_inv; auto].
  break_if; [|ok_inv; auto].
  repeat (apply andb_prop in Heqb; destruct Heqb as [Heqb ?]).
  apply bind_ok in H. destruct H as ([[[sc delay] used] conf] & Hd & H).
  destruct sc; [|ok_inv; auto].
  right. split; [now apply negb_true_iff|]. split; [assumption|].
  split; [assumption|]. split; [now apply py_leb_le|].
  exists used, conf. cbv zeta.
  break_if.
  - right. break_match. ok_inv. eauto.
  - left. ok_inv. eauto.
Qed.

Lemma complete_dig_self d l f d' l' :
  complete_dig d l f = Ok (d', l') ->
  d' = d \/ d' = set_dig_count (dig_count d + 1)%Z d.
Proof.
  unfold complete_dig. intro H.
  break_if; [|ok_inv; auto].
  apply bind_ok in H. destruct H as (l1 & _ & H). ok_inv. auto.
Qed.

Lemma iteration_inv d l f d' l' a :
  iteration float_pow d l f = Ok (d', l', a) ->
  exists dz de sweet dw lw aw dc lc ac,
    track_zone d f = Ok dz
    /\ de = set_target_engaged
              (snd (check_target_engagement dz (line_pos f) (game_fps f)))
              (fst (check_target_engagement dz (line_pos f) (game_fps f)))
    /\ sweet_spot de f = Ok sweet
    /\ auto_walk_step de (clear_stale_pending_sell l f) f = (dw, lw, aw)
    /\ click_scheduler float_pow dw lw f sweet (should_allow_clicking dw lw f)
       = Ok (dc, lc, ac)
    /\ complete_dig dc lc f = Ok (d', l')
    /\ a = aw ++ ac.
Proof.
  unfold iteration. intro H.
  apply bind_ok in H. destruct H as (dz & Hz & H).
  destruct (check_target_engagement dz (line_pos f) (game_fps f))
    as [dh e] eqn:He.
  apply bind_ok in H. destruct H as (sweet & Hs & H).
  destruct (auto_walk_step _ _ f) as [[dw lw] aw] eqn:Hw.
  apply bind_ok in H. destruct H as ([[dc lc] ac] & Hc & H).
  apply bind_ok in H. destruct H as ([d2 l2] & Hd & H). ok_inv.
  exists dz, (set_target_engaged e dh), sweet, dw, lw, aw, dc, lc, ac.
  rewrite He. simpl. repeat split; auto.
Qed.

End LoopFacts.

(** ** C10: target engagement *)

Section EngagementFacts.

Variable float_pow : Q -> Q -> Q.

Lemma iteration_engagement d l f d' l' a :
  iteration float_pow d l f = Ok (d', l', a) ->
  (List.length (line_moving_history d')
   <= S (List.length (line_moving_history d)))%nat
  /\ (target_engaged d' = true ->
      (10 <= List.length (line_moving_history d'))%nat).
Proof.
  intro H. apply iteration_inv in H.
  destruct H as (dz & de & sweet & dw & lw & aw & dc & lc & ac
                 & Hz & -> & Hs & Hw & Hc & Hd & ->).
  apply track_zone_outside in Hz.
  destruct Hz as (_ & _ & _ & _ & _ & _ & Hhist & _).
  pose proof (check_line_movement_history dz (line_pos f) (game_fps f)) as Hlen.
  unfold check_target_engagement in *.
  destruct (check_line_movement dz (line_pos f) (game_fps f))
    as [dh moving] eqn:Hm.
  fields. rewrite Hhist in Hlen.
  assert (Hmov : negb (line_pos f =? -1)%Z && moving = true ->
                 (10 <= List.length (line_moving_history dh))%nat).
  { intro E. apply andb_prop in E. destruct E as [_ ->].
    now apply check_line_movement_true in Hm. }
  assert (Hrest : target_engaged d'
                  = negb (line_pos f =? -1)%Z && moving
                  /\ line_moving_history d' = line_moving_history dh).
  { apply auto_walk_step_self in Hw. apply click_scheduler_self in Hc.
    apply complete_dig_self in Hd.
    assert (target_engaged dw = negb (line_pos f =? -1)%Z && moving
            /\ line_moving_history dw = line_moving_history dh)
      by (destruct Hw as [[-> _]|(_ & -> & _)]; fields; auto).
    assert (target_engaged dc = target_engaged dw
            /\ line_moving_history dc = line_moving_history dw).
    { destruct Hc as [[-> _]|(_ & _ & _ & _ & u & c & [(x & -> & _)|(s & Hp & _)])];
        fields; auto.
      apply perform_instant_click_self in Hp. destruct Hp as (-> & _).
      fields. auto. }
    destruct Hd as [->| ->]; fields; intuition congruence. }
  destruct Hrest as [-> ->]. auto.
Qed.

Lemma system_step_engagement s e s' :
  system_step float_pow s e = Ok s' ->
  match e with
  | Iterate _ =>
      (List.length (line_moving_history (self s'))
       <= S (List.length (line_moving_history (self s))))%nat
      /\ (target_engaged (self s') = true ->
          (10 <= List.length (line_moving_history (self s')))%nat)
  | _ =>
      line_moving_history (self s') = line_moving_history (self s)
      /\ target_engaged (self s') = target_engaged (self s)
  end.
Proof.
  destruct e as [f| |]; simpl; intro H.
  - apply bind_ok in H. destruct H as ([[d l] a] & Hi & H). ok_inv.
    fields. eapply iteration_engagement; eauto.
  - destruct (in_flight s); ok_inv; auto.
  - ok_inv. fields. unfold instant_click. break_if; fields; auto.
Qed.

Lemma system_run_engagement es : forall s s',
  system_run float_pow s es = Ok s' ->
  target_engaged (self s) = false ->
  (List.length (line_moving_history (self s)) + List.length (frames_of es)
   <= 9)%nat ->
  target_engaged (self s') = false.
Proof.
  induction es as [|e es IH]; simpl; intros s s' H He Hn.
  - ok_inv. assumption.
  - apply bind_ok in H. destruct H as (s1 & H1 & H).
    apply system_step_engagement in H1.
    apply (IH _ _ H); destruct e; simpl in Hn;
      rewrite ?length_app in Hn; simpl in Hn.
    + destruct H1 as [Hl Ht].
      destruct (target_engaged (self s1)); [|reflexivity].
      specialize (Ht eq_refl). lia.
    + destruct H1 as [_ ->]. assumption.
    + destruct H1 as [_ ->]. assumption.
    + destruct H1 as [Hl _]. lia.
    + destruct H1 as [-> _]. lia.
    + destruct H1 as [-> _]. lia.
Qed.

End EngagementFacts.

(** C10. [check_target_engagement] answers [True] only if the line is
    detected in this frame ([line_pos != -1]), the movement history, after
    this frame's sample is appended, holds at least 10 samples of which at
    least 5 are valid, and the valid positions span at least
    [min_movement_threshold = 50] pixels.  Starting the bot empties the
    history, so whatever the first 9 processed frames contain, and however
    click threads finish in between, [target_engaged] is [False] after
    each of them. *)
Theorem engagement_needs_a_moving_line :
  (forall d line_pos fps d',
      check_target_engagement d line_pos fps = (d', true) ->
      line_pos <> (-1)%Z
      /\ (10 <= List.length (line_moving_history d'))%nat
      /\ (5 <= List.length (valid_positions (line_moving_history d')))%nat
      /\ exists lo hi,
           In lo (valid_positions (line_moving_history d'))
           /\ In hi (valid_positions (line_moving_history d'))
           /\ (forall p, In p (valid_positions (line_moving_history d')) ->
                 lo <= p <= hi)%Z
           /\ (50 <= hi - lo)%Z)
  /\ (forall float_pow time_ms d l n j es s',
      running d = false ->
      (List.length (frames_of es) <= 9)%nat ->
      system_run float_pow
        {| self := toggle_detection_thread_safe true time_ms d;
           locals := l; in_flight := n; journal := j |} es = Ok s' ->
      target_engaged (self s') = false).
Proof.
  split.
  - intros d line_pos fps d' H. unfold check_target_engagement in H.
    destruct (check_line_movement d line_pos fps) as [d1 moving] eqn:Hm.
    ok_inv. apply andb_prop in H2. destruct H2 as [Hl ->].
    split.
    + apply negb_true_iff, Z.eqb_neq in Hl. exact Hl.
    + now apply check_line_movement_true in Hm.
  - intros float_pow time_ms d l n j es s' Hr Hn H.
    eapply system_run_engagement; [exact H| |].
    + fields. unfold toggle_detection_thread_safe. rewrite Hr. reflexivity.
    + fields. unfold toggle_detection_thread_safe. rewrite Hr. simpl. exact Hn.
Qed.

Lemma engagement_needs_a_moving_line_witness :
  (160 <> -1)%Z
  /\ exists s',
       system_run unit_pow
         {| self := toggle_detection_thread_safe true 1000 init_DigTool;
            locals := init_Locals; in_flight := 0; journal := [] |}
         [Iterate (still_frame 1010 100 None); InstantClickDone;
          Iterate (still_frame 1020 160 None)] = Ok s'
       /\ target_engaged (self s') = false.
Proof.
  split.
  - exact (proj1 (proj1 engagement_needs_a_moving_line
             (with_history [100; 105; 110; 115; 120; 130; 140; 150; -1]%Z)
             160%Z 120
             (with_history [100; 105; 110; 115; 120; 130; 140; 150; -1; 160]%Z)
             eq_refl)).
  - eexists. split; [vm_compute; reflexivity|].
    apply (proj2 engagement_needs_a_moving_line unit_pow 1000
             init_DigTool init_Locals 0%nat []
             [Iterate (still_frame 1010 100 None); InstantClickDone;
              Iterate (still_frame 1020 160 None)]).
    + reflexivity.
    + vm_compute. lia.
    + vm_compute. reflexivity.
Defined.

(** ** C8: zone smoothing *)

Lemma adaptive_smoothing_bounds alpha w pc wc :
  0 <= alpha ->
  0 <= adaptive_smoothing alpha w pc wc <= alpha + (1 # 10).
Proof.
  intro Ha. unfold adaptive_smoothing, Py.min.
  repeat break_if;
    repeat match goal with
    | H : Py.leb _ _ = true |- _ => apply py_leb_le in H
    | H : Py.leb _ _ = false |- _ => apply py_leb_gt in H
    | H : Py.ltb _ _ = true |- _ => apply py_ltb_lt in H
    | H : Py.ltb _ _ = false |- _ => apply py_ltb_ge in H
    end; lra.
Qed.





(** ** C3, C9: releasing the colour lock *)

Lemma track_zone_no_candidate d f :
  zone_candidate f = None ->
  track_zone d f
  = Ok (release_color_lock
          (set_frames_since_last_zone_detection
             (frames_since_last_zone_detection d + 1)%Z d) f).
Proof.
  intro H. unfold track_zone, select_zone. rewrite H. reflexivity.
Qed.

Lemma track_zone_frames_unlocked fs : forall d,
  Forall (fun f => zone_candidate f = None) fs ->
  is_color_locked d = false ->
  exists d', track_zone_frames d fs = Ok d' /\ is_color_locked d' = false.
Proof.
  induction fs as [|f fs IH]; intros d Hfs Hl; simpl.
  - eauto.
  - inversion Hfs as [|? ? Hf Hfs']; subst.
    rewrite (track_zone_no_candidate d f Hf). fields.
    apply IH; [assumption|].
    unfold release_color_lock. break_if; fields; auto.
Qed.

Lemma track_zone_frames_locked K fs : forall d,
  Forall (fun f => zone_candidate f = None /\ zone_timeout_frames f = K) fs ->
  is_color_locked d = true ->
  (0 <= frames_since_last_zone_detection d <= K)%Z ->
  exists d',
    track_zone_frames d fs = Ok d'
    /\ ((frames_since_last_zone_detection d + Z.of_nat (List.length fs) <= K)%Z ->
        is_color_locked d' = true)
    /\ ((K < frames_since_last_zone_detection d + Z.of_nat (List.length fs))%Z ->
        is_color_locked d' = false).
Proof.
  induction fs as [|f fs IH]; intros d Hfs Hl Hc.
  - simpl. exists d. split; [reflexivity|]. split; intros; [assumption|lia].
  - inversion Hfs as [|? ? Hf0 Hfs']; subst. destruct Hf0 as [Hf HK].
    cbn [track_zone_frames]. rewrite (track_zone_no_candidate d f Hf). fields.
    unfold release_color_lock. fields.
    destruct (frames_since_last_zone_detection d + 1
              >? zone_timeout_frames f)%Z eqn:E.
    + apply Z.gtb_lt in E.
      destruct (track_zone_frames_unlocked fs
                  (set_smoothed_zone_x None
                     (set_locked_color_hex None
                        (set_locked_color_hsv None
                           (set_is_color_locked false
                              (set_frames_since_last_zone_detection
                                 (frames_since_last_zone_detection d + 1)%Z
                                 d))))))
        as (d' & Hrun & Hun).
      * eapply Forall_impl; [|exact Hfs']. simpl. tauto.
      * reflexivity.
      * exists d'. split; [exact Hrun|]. split; intro; [|assumption].
        rewrite length_cons in *. lia.
    + assert (frames_since_last_zone_detection d + 1 <= zone_timeout_frames f)%Z
        by (destruct (Z.gtb_spec (frames_since_last_zone_detection d + 1)
                        (zone_timeout_frames f)); [discriminate|lia]).
      destruct (IH (set_frames_since_last_zone_detection
                      (frames_since_last_zone_detection d + 1)%Z d))
        as (d' & Hrun & Hk & Hr); [assumption|exact Hl|fields; lia|].
      fields. exists d'. split; [exact Hrun|].
      rewrite length_cons. split; intro; [apply Hk|apply Hr]; lia.
Qed.

(** C3 (amended). A colour lock whose miss counter is 0 (as it is on the
    frame that acquires the lock and on every frame with an accepted
    candidate) survives [K] consecutive frames with no accepted candidate
    and is released on frame [K + 1], where
    [K = max(int(game_fps * 0.167), 5)] with [int] truncating and
    [game_fps = max(target_fps, 1)]; it stays released while no candidate
    shows up.  At 60 fps [K = 10]: the lock is released on the 11th such
    frame, hence also after 12. *)
Theorem color_lock_released_after_timeout d f fs K :
  is_color_locked d = true ->
  frames_since_last_zone_detection d = 0%Z ->
  Forall (fun f => zone_candidate f = None /\ zone_timeout_frames f = K)
    (f :: fs) ->
  (forall f, zone_timeout_frames f
             = Z.max (Py.int (Py.max (target_fps f) 1 * (167 # 1000))) 5)
  /\ (forall f, target_fps f = 60 -> zone_timeout_frames f = 10%Z)
  /\ exists d',
       track_zone_frames d (f :: fs) = Ok d'
       /\ ((Z.of_nat (List.length (f :: fs)) <= K)%Z ->
           is_color_locked d' = true)
       /\ ((K < Z.of_nat (List.length (f :: fs)))%Z ->
           is_color_locked d' = false).
Proof.
  intros Hl Hc Hfs. split; [reflexivity|]. split.
  - intros f' Hf. unfold zone_timeout_frames, game_fps. rewrite Hf.
    reflexivity.
  - assert (HK : (5 <= K)%Z).
    { inversion Hfs as [|? ? Hf0 _]. destruct Hf0 as [_ HK]. subst K.
      unfold zone_timeout_frames. lia. }
    destruct (track_zone_frames_locked K (f :: fs) d Hfs Hl)
      as (d' & Hrun & Hk & Hr); [lia|].
    exists d'. rewrite Hc in *. auto.
Qed.

Lemma color_lock_released_after_timeout_witness :
  exists d',
    track_zone_frames locked_grey (empty_frames 11 1016) = Ok d'
    /\ is_color_locked d' = false.
Proof.
  destruct (color_lock_released_after_timeout locked_grey
              (frame_at 60 1016 (-1) None) (empty_frames 10 (1016 + 16)) 10)
    as (_ & _ & d' & Hrun & _ & Hreleased).
  - reflexivity.
  - reflexivity.
  - repeat (constructor; [split; reflexivity|]). constructor.
  - exists d'. split; [exact Hrun|]. apply Hreleased. vm_compute. reflexivity.
Defined.

(** C3, as stated, fails: at 60 fps [K = 10], and after exactly 10
    consecutive frames without a candidate the lock taken on [grey_zone] is
    still held. *)
Lemma color_lock_held_after_K_misses :
  zone_timeout_frames (frame_at 60 1016 (-1) None) = 10%Z
  /\ is_color_locked locked_grey = true
  /\ frames_since_last_zone_detection locked_grey = 0%Z
  /\ exists d',
       track_zone_frames locked_grey (empty_frames 10 1016) = Ok d'
       /\ frames_since_last_zone_detection d' = 10%Z
       /\ is_color_locked d' = true.
Proof.
  repeat split. eexists. split; [vm_compute; reflexivity|]. split; reflexivity.
Qed.

(** C9 (amended). When the miss counter passes the timeout, the release
    clears the locked flag, the locked mean HSV, the display hex colour and
    the smoothed position, so that detection is unlocked and the smoothed
    zone counts as unset.  The low-saturation flag and the smoothed width
    are left as they were; the next lock acquisition writes the flag and the
    next candidate after the release writes the width, before either is
    read. *)
Theorem release_clears_lock_and_position :
  (forall d f d',
      track_zone d f = Ok d' ->
      (frames_since_last_zone_detection d' > zone_timeout_frames f)%Z ->
      is_color_locked d' = false
      /\ locked_color_hsv d' = None
      /\ locked_color_hex d' = None
      /\ smoothed_zone_x d' = None
      /\ is_low_sat_lock d' = is_low_sat_lock d
      /\ smoothed_zone_w d' = smoothed_zone_w d)
  /\ (forall d f c d',
      is_color_locked d = false ->
      smoothed_zone_x d = None ->
      zone_candidate f = Some c ->
      track_zone d f = Ok d' ->
      is_color_locked d' = true
      /\ is_low_sat_lock d' = Py.ltb (snd (fst (mean_hsv c))) 25
      /\ smoothed_zone_w d' = Some (inject_Z (w_temp c))).
Proof.
  split.
  - intros d f d' H Hfire.
    assert (HK : (5 <= zone_timeout_frames f)%Z)
      by (unfold zone_timeout_frames; lia).
    unfold track_zone, select_zone in H.
    destruct (zone_candidate f) as [c|].
    + exfalso. apply bind_ok in H. destruct H as (d1 & Hs & H). ok_inv.
      unfold smooth_zone in Hs. fields.
      assert (frames_since_last_zone_detection d1 = 0%Z)
        by (repeat (break_match; ok_inv); fields; reflexivity).
      unfold release_color_lock in Hfire.
      break_if; fields; lia.
    + unfold smooth_zone in H. fields. ok_inv.
      unfold release_color_lock in *. fields.
      break_if; fields; [tauto|].
      destruct (Z.gtb_spec (frames_since_last_zone_detection d + 1)
                  (zone_timeout_frames f)); [discriminate|lia].
  - intros d f c d' Hl Hx Hc H.
    unfold track_zone, select_zone in H. rewrite Hc, Hl in H.
    unfold smooth_zone in H. fields. rewrite Hx in H. fields.
    ok_inv. unfold release_color_lock. fields.
    assert (HK : (5 <= zone_timeout_frames f)%Z)
      by (unfold zone_timeout_frames; lia).
    destruct (Z.gtb_spec 0 (zone_timeout_frames f)); [lia|].
    fields. auto.
Qed.

Lemma release_clears_lock_and_position_witness :
  exists d10 d11 d12,
    track_zone_frames locked_grey (empty_frames 10 1016) = Ok d10
    /\ track_zone d10 (frame_at 60 1176 (-1) None) = Ok d11
    /\ is_color_locked d11 = false
    /\ smoothed_zone_x d11 = None
    /\ track_zone d11 (frame_at 60 1192 (-1) (Some green_zone)) = Ok d12
    /\ is_low_sat_lock d12 = false
    /\ smoothed_zone_w d12 = Some 40.
Proof.
  eexists _, _, _.
  split; [vm_compute; reflexivity|].
  split; [vm_compute; reflexivity|].
  match goal with
  | |- is_color_locked ?d11 = _ /\ _ =>
      destruct (proj1 release_clears_lock_and_position
                  (set_frames_since_last_zone_detection 10%Z locked_grey)
                  (frame_at 60 1176 (-1) None) d11)
        as (Hl & _ & _ & Hx & _);
      [vm_compute; reflexivity|vm_compute; reflexivity|]
  end.
  split; [exact Hl|]. split; [exact Hx|].
  split; [vm_compute; reflexivity|].
  match goal with
  | |- is_low_sat_lock ?d12 = _ /\ _ =>
      destruct (proj2 release_clears_lock_and_position
                  _ (frame_at 60 1192 (-1) (Some green_zone)) green_zone d12
                  Hl Hx eq_refl)
        as (_ & Hs & Hw); [vm_compute; reflexivity|]
  end.
  split; [exact Hs|exact Hw].
Defined.

(** C9, as stated, fails: after the release the low-saturation flag is still
    set and the smoothed width still holds the old zone's 40 px. *)
Lemma release_leaves_low_sat_flag_and_width :
  exists d',
    track_zone_frames locked_grey (empty_frames 11 1016) = Ok d'
    /\ (frames_since_last_zone_detection d'
        > zone_timeout_frames (frame_at 60 1176 (-1) None))%Z
    /\ is_color_locked d' = false
    /\ is_low_sat_lock d' = true
    /\ smoothed_zone_w d' = Some 40.
Proof.
  eexists. split; [vm_compute; reflexivity|]. repeat split.
Qed.

(** ** C2, C5: the click scheduler *)

Ltac reflect_all :=
  repeat match goal with
  | H : Py.leb _ _ = true |- _ => apply py_leb_le in H
  | H : Py.leb _ _ = false |- _ => apply py_leb_gt in H
  | H : Py.ltb _ _ = true |- _ => apply py_ltb_lt in H
  | H : Py.ltb _ _ = false |- _ => apply py_ltb_ge in H
  | H : Py.eqb _ _ = true |- _ => apply py_eqb_eq in H
  | H : Py.eqb _ _ = false |- _ => apply py_eqb_neq in H
  end.

Lemma py_leb_true x y : x <= y -> Py.leb x y = true.
Proof. apply py_leb_le. Qed.

Lemma py_ltb_true x y : x < y -> Py.ltb x y = true.
Proof. apply py_ltb_lt. Qed.

Lemma py_ltb_false x y : y <= x -> Py.ltb x y = false.
Proof. apply py_ltb_ge. Qed.


Section SchedulerFacts.

Variable float_pow : Q -> Q -> Q.

Lemma scheduler_gate d f :
  running d = true -> click_lock d = false ->
  blind_until d <= current_time_ms f ->
  is_past_startup_grace d f = true ->
  running d && true && Py.leb (blind_until d) (current_time_ms f)
  && negb (click_lock d) && is_past_startup_grace d f = true.
Proof.
  intros -> -> Hb ->. rewrite (py_leb_true _ _ Hb). reflexivity.
Qed.

Lemma predict_click_shape f c s e r :
  predict_click float_pow f c s e = Ok r ->
  (exists confidence, r = (false, 0, false, confidence))
  \/ (exists delay confidence, r = (true, delay, true, confidence)
                               /\ 0 < delay).
Proof.
  unfold predict_click. intro H.
  repeat (break_match; ok_inv); eauto.
  right. reflect_all. eauto.
Qed.


Lemma not_moving_towards_is_no_prediction f c s e :
  inject_Z (line_pos f) == c ->
  predict_click float_pow f c s e = Ok (false, 0, false, 0).
Proof.
  intro Hc. unfold predict_click.
  rewrite (py_ltb_false (inject_Z (line_pos f)) c) by lra.
  rewrite (py_ltb_false c (inject_Z (line_pos f))) by lra.
  simpl. destruct (prediction_enabled f && negb (line_pos f =? -1)%Z);
    reflexivity.
Qed.

End SchedulerFacts.

(** C2 (amended). In a frame where the click token is free, the blind
    period and the start-up grace period have elapsed, clicking is allowed,
    a sweet spot exists and [sweet_spot_start <= line_pos <= sweet_spot_end],
    and the prediction block schedules no delayed click, the scheduler
    decides a click with delay 0 and confidence exactly 1.0, sets the blind
    deadline and calls [perform_instant_click], which starts the click thread
    when fewer than 3 click threads are alive.  With sweet spot [90, 110]
    (centre 100) and line position 100 the prediction block never fires, so
    the click is direct with confidence 1.0. *)
Theorem direct_click_when_no_predictive_click :
  (forall float_pow d l f c s e confidence,
      running d = true ->
      click_lock d = false ->
      blind_until d <= current_time_ms f ->
      is_past_startup_grace d f = true ->
      s <= inject_Z (line_pos f) <= e ->
      predict_click float_pow f c s e = Ok (false, 0, false, confidence) ->
      click_decision float_pow f c s e = Ok (true, 0, false, 1)
      /\ exists d' started,
           perform_instant_click
             (set_blind_until (current_time_ms f + post_click_blindness f) d) f
           = (d', started)
           /\ click_scheduler float_pow d l f (Some (c, s, e)) true
              = Ok (d', set_click_delay 0 l,
                    SaveDebugScreenshot false 1 :: started)
           /\ blind_until d' = current_time_ms f + post_click_blindness f
           /\ ((List.length (filter (is_alive f) (click_thread_pool d))
                < max_click_threads)%nat ->
               started = [StartInstantClick (new_thread f)]))
  /\ (forall float_pow f,
      line_pos f = 100%Z ->
      click_decision float_pow f 100 90 110 = Ok (true, 0, false, 1)).
Proof.
  split.
  - intros float_pow d l f c s e confidence Hr Hl Hb Hg [Hs He] Hp.
    assert (Hd : click_decision float_pow f c s e = Ok (true, 0, false, 1)).
    { unfold click_decision. rewrite Hp. fields.
      rewrite (py_leb_true _ _ Hs), (py_leb_true _ _ He). reflexivity. }
    split; [exact Hd|].
    destruct (perform_instant_click
                (set_blind_until (current_time_ms f + post_click_blindness f) d)
                f) as [d' started] eqn:Hi.
    exists d', started. split; [reflexivity|]. split; [|split].
    + unfold click_scheduler. rewrite (scheduler_gate d f Hr Hl Hb Hg), Hd.
      fields. rewrite Hi. reflexivity.
    + apply perform_instant_click_self in Hi. destruct Hi as (-> & _).
      reflexivity.
    + intro Hfree. unfold perform_instant_click in Hi. fields.
      apply Nat.ltb_lt in Hfree. rewrite Hfree in Hi. ok_inv. reflexivity.
  - intros float_pow f Hl. unfold click_decision.
    rewrite not_moving_towards_is_no_prediction by (rewrite Hl; reflexivity).
    fields. rewrite Hl. reflexivity.
Qed.

Lemma direct_click_when_no_predictive_click_witness :
  click_decision unit_pow (centred_frame 5000 1) (200 # 2) (360 # 4) (440 # 4)
  = Ok (true, 0, false, 1)
  /\ click_decision unit_pow (centred_frame 5000 1) 100 90 110
     = Ok (true, 0, false, 1).
Proof.
  split.
  - apply (proj1 direct_click_when_no_predictive_click unit_pow hunting
             init_Locals (centred_frame 5000 1) (200 # 2) (360 # 4) (440 # 4)
             0).
    + reflexivity.
    + reflexivity.
    + unfold Qle. simpl. lia.
    + reflexivity.
    + split; unfold Qle; simpl; lia.
    + reflexivity.
  - apply (proj2 direct_click_when_no_predictive_click unit_pow
             (centred_frame 5000 1)).
    reflexivity.
Defined.

(** C2, as stated, fails: with the token free, no blind period, clicking
    allowed, sweet spot [90, 110] and the line at column 95 inside it, the
    iteration starts a predictive click with a positive delay and confidence
    0.9, not an immediate click with confidence 1.0. *)
Lemma line_in_sweet_spot_clicked_with_delay :
  exists c s e d' l' delay confidence,
    sweet_spot hunting approach_frame = Ok (Some (c, s, e))
    /\ Py.eqb s 90 = true /\ Py.eqb e 110 = true
    /\ Py.leb s (inject_Z (line_pos approach_frame)) = true
    /\ Py.leb (inject_Z (line_pos approach_frame)) e = true
    /\ click_lock hunting = false
    /\ Py.leb (blind_until hunting) (current_time_ms approach_frame) = true
    /\ iteration unit_pow hunting init_Locals approach_frame
       = Ok (d', l', [SaveDebugScreenshot true confidence;
                      StartClick predictive_click delay])
    /\ target_engaged d' = true
    /\ Py.ltb 0 delay = true
    /\ Py.eqb confidence (9 # 10) = true.
Proof.
  eexists _, _, _, _, _, _, _.
  split; [vm_compute; reflexivity|].
  repeat (split; [vm_compute; reflexivity|]).
  vm_compute; reflexivity.
Qed.




(** ** C4: waiting for the target *)

Lemma wait_timeout_retry d l f :
  running d = true -> auto_walk_enabled f = true -> is_selling f = false ->
  auto_walk_state l = wait_for_target ->
  target_engaged d = false ->
  max_wait_time < current_time_ms f - wait_for_target_start l ->
  (click_retry_count l < max_click_retries)%Z ->
  click_lock d = false ->
  auto_walk_step d l f
  = (set_click_lock true d,
     set_wait_for_target_start (current_time_ms f)
       (set_click_retry_count (click_retry_count l + 1)%Z l),
     [StartClick retry_click 0]).
Proof.
  intros Hr Ha Hs Hst He Ht Hc Hl.
  unfold auto_walk_step, step_wait_for_target.
  rewrite Hr, Ha, Hs, Hst, He. simpl.
  rewrite (py_ltb_true _ _ Ht).
  apply Z.ltb_lt in Hc. rewrite Hc. fields. rewrite Hl. reflexivity.
Qed.

Lemma wait_timeout_give_up d l f :
  running d = true -> auto_walk_enabled f = true -> is_selling f = false ->
  auto_walk_state l = wait_for_target ->
  target_engaged d = false ->
  max_wait_time < current_time_ms f - wait_for_target_start l ->
  (max_click_retries <= click_retry_count l)%Z ->
  auto_walk_step d l f
  = (d, set_auto_walk_state move (set_click_retry_count 0%Z l), []).
Proof.
  intros Hr Ha Hs Hst He Ht Hc.
  unfold auto_walk_step, step_wait_for_target.
  rewrite Hr, Ha, Hs, Hst, He. simpl.
  rewrite (py_ltb_true _ _ Ht).
  apply Z.ltb_ge in Hc. rewrite Hc. reflexivity.
Qed.

Lemma wait_within_window d l f :
  auto_walk_state l = wait_for_target ->
  target_engaged d = false ->
  current_time_ms f - wait_for_target_start l <= max_wait_time ->
  auto_walk_step d l f = (d, l, []).
Proof.
  intros Hst He Ht.
  unfold auto_walk_step, step_wait_for_target.
  rewrite Hst, He, (py_ltb_false _ _ Ht).
  destruct (running d && auto_walk_enabled f && negb (is_selling f));
    [|reflexivity].
  destruct (negb (is_selling f)); reflexivity.
Qed.

(** C4 (amended). In [wait_for_target] without engagement nothing happens
    while the 5000 ms window, counted from the last click, has not run out.
    From a retry counter of 0 and with the click token free at each timeout,
    the first and the second time the window runs out the counter is
    incremented, a retry click is started and the window restarts; the
    machine is still in [wait_for_target] with the counter at 2.  The third
    time the window runs out no click is started and the machine returns to
    [move] with the counter reset to 0. *)
Theorem wait_for_target_gives_up_on_third_timeout d l f1 f2 f3 :
  running d = true ->
  click_lock d = false ->
  target_engaged d = false ->
  auto_walk_state l = wait_for_target ->
  click_retry_count l = 0%Z ->
  Forall (fun f => auto_walk_enabled f = true /\ is_selling f = false)
    [f1; f2; f3] ->
  max_wait_time < current_time_ms f1 - wait_for_target_start l ->
  max_wait_time < current_time_ms f2 - current_time_ms f1 ->
  max_wait_time < current_time_ms f3 - current_time_ms f2 ->
  (forall f, current_time_ms f - wait_for_target_start l <= max_wait_time ->
             auto_walk_step d l f = (d, l, []))
  /\ exists d1 l1 d2 l2 d3 l3,
       auto_walk_step d l f1 = (d1, l1, [StartClick retry_click 0])
       /\ click_retry_count l1 = 1%Z
       /\ auto_walk_step (perform_click d1) l1 f2
          = (d2, l2, [StartClick retry_click 0])
       /\ click_retry_count l2 = 2%Z
       /\ auto_walk_state l2 = wait_for_target
       /\ auto_walk_step (perform_click d2) l2 f3 = (d3, l3, [])
       /\ auto_walk_state l3 = move
       /\ click_retry_count l3 = 0%Z.
Proof.
  intros Hr Hl He Hst Hc Hfs H1 H2 H3.
  inversion Hfs as [|? ? [Ha1 Hs1] Hfs1]; subst.
  inversion Hfs1 as [|? ? [Ha2 Hs2] Hfs2]; subst.
  inversion Hfs2 as [|? ? [Ha3 Hs3] _]; subst.
  split; [intros f Hf; now apply wait_within_window|].
  eexists _, _, _, _, _, _.
  split. { apply wait_timeout_retry; auto. rewrite Hc. reflexivity. }
  fields. split; [rewrite Hc; reflexivity|].
  split.
  { rewrite wait_timeout_retry; fields; auto.
    rewrite Hc. reflexivity. }
  fields. split; [rewrite Hc; reflexivity|].
  split; [exact Hst|].
  split.
  { rewrite wait_timeout_give_up; fields; auto.
    rewrite Hc. unfold max_click_retries. lia. }
  fields. split; reflexivity.
Qed.

Lemma wait_for_target_gives_up_on_third_timeout_witness :
  exists d3 l3,
    auto_walk_step (perform_click (fst (fst after_two_timeouts)))
      (snd (fst after_two_timeouts)) (timeout_frame 16003) = (d3, l3, [])
    /\ auto_walk_state l3 = move
    /\ click_retry_count l3 = 0%Z.
Proof.
  destruct (wait_for_target_gives_up_on_third_timeout
              (set_running true init_DigTool) waiting
              (timeout_frame 6001) (timeout_frame 11002) (timeout_frame 16003))
    as (_ & d1 & l1 & d2 & l2 & d3 & l3 & E1 & _ & E2 & _ & _ & E3 & Hm & Hc);
    try reflexivity.
  - repeat constructor.
  - exists d3, l3. split; [|split; assumption].
    unfold after_two_timeouts. rewrite E1, E2. exact E3.
Defined.

(** C4, as stated, fails: after the window has run out twice, with two
    retry clicks started, the machine is still in [wait_for_target] and the
    retry counter is 2. *)
Lemma still_waiting_after_two_timeouts :
  snd after_two_timeouts = [StartClick retry_click 0; StartClick retry_click 0]
  /\ auto_walk_state (snd (fst after_two_timeouts)) = wait_for_target
  /\ click_retry_count (snd (fst after_two_timeouts)) = 2%Z.
Proof. repeat split. Qed.

(** ** C7: completing a dig *)



Lemma clear_stale_pending_sell_walk l f :
  auto_walk_state (clear_stale_pending_sell l f) = auto_walk_state l
  /\ target_disengaged_time (clear_stale_pending_sell l f)
     = target_disengaged_time l
  /\ click_retry_count (clear_stale_pending_sell l f) = click_retry_count l.
Proof.
  unfold clear_stale_pending_sell. repeat break_if; fields; auto.
Qed.

Section DigFacts.

Variable float_pow : Q -> Q -> Q.


Lemma click_scheduler_locals d l f sweet allow d' l' a :
  click_scheduler float_pow d l f sweet allow = Ok (d', l', a) ->
  l' = l \/ exists delay, l' = set_click_delay delay l.
Proof.
  unfold click_scheduler. intro H.
  destruct sweet as [[[c s] e]|]; [|ok_inv; auto].
  break_if; [|ok_inv; auto].
  apply bind_ok in H. destruct H as ([[[sc delay] used] conf] & _ & H).
  repeat (break_match; ok_inv); eauto.
Qed.


End DigFacts.

Section DigRuns.

Variable float_pow : Q -> Q -> Q.

Lemma auto_walk_step_enters_digging d l f d' l' a :
  auto_walk_step d l f = (d', l', a) ->
  auto_walk_state l' = digging ->
  auto_walk_state l = digging \/ target_disengaged_time l' = 0.
Proof.
  unfold auto_walk_step, step_move, step_click_to_start,
    step_wait_for_target, step_digging.
  intros H Hd.
  repeat (break_match; ok_inv); fields; auto; congruence.
Qed.

(** An iteration counts a dig only out of [digging], only once, and leaves
    for [move] when it does. *)
Lemma iteration_counts_dig_once d l f d' l' a :
  iteration float_pow d l f = Ok (d', l', a) ->
  dig_count d' = dig_count d
  \/ (auto_walk_state l = digging
      /\ auto_walk_state l' = move
      /\ dig_count d' = (dig_count d + 1)%Z).
Proof.
  intro H. apply iteration_inv in H.
  destruct H as (dz & de & sweet & dw & lw & aw & dc & lc & ac
                 & Hz & -> & Hs & Hw & Hc & Hd & ->).
  apply track_zone_outside in Hz. destruct Hz as (_ & _ & Hdz & _).
  assert (Hde : dig_count
                  (set_target_engaged
                     (snd (check_target_engagement dz (line_pos f) (game_fps f)))
                     (fst (check_target_engagement dz (line_pos f) (game_fps f))))
                = dig_count dz).
  { unfold check_target_engagement, check_line_movement.
    destruct (line_movement _ _ _). reflexivity. }
  pose proof (auto_walk_step_enters_digging _ _ _ _ _ _ Hw) as Henter.
  destruct (clear_stale_pending_sell_walk l f) as (Hcs & _ & _).
  assert (Hdw : dig_count dw = dig_count dz).
  { apply auto_walk_step_self in Hw.
    destruct Hw as [[-> _]|(_ & -> & _)]; fields; congruence. }
  pose proof (click_scheduler_locals _ _ _ _ _ _ _ _ _ Hc) as Hlc.
  assert (Hdcc : dig_count dc = dig_count dw).
  { apply click_scheduler_self in Hc.
    destruct Hc as [[-> _]|(_ & _ & _ & _ & u & c & [(x & -> & _)|(s & Hp & _)])];
      fields; auto.
    apply perform_instant_click_self in Hp. destruct Hp as (-> & _).
    reflexivity. }
  unfold complete_dig in Hd.
  destruct (auto_walk_enabled f
            && AutoWalkState_eqb (auto_walk_state lc) digging
            && Py.ltb 0 (target_disengaged_time lc)
            && Py.ltb 1500 (current_time_ms f - target_disengaged_time lc))
    eqn:Efire.
  - apply bind_ok in Hd. destruct Hd as (l3 & _ & Hd). ok_inv. fields.
    right.
    repeat (apply andb_prop in Efire; destruct Efire as [Efire ?]).
    assert (Hlcs : auto_walk_state lc = digging)
      by (destruct (auto_walk_state lc); simpl in *; congruence).
    assert (Hlw : auto_walk_state lw = digging
                  /\ target_disengaged_time lw = target_disengaged_time lc)
      by (destruct Hlc as [->|[x ->]]; fields; auto).
    destruct Hlw as [Hlws Hlwt].
    destruct (Henter Hlws) as [Hdig|Hzero].
    + repeat split; [congruence|lia].
    + exfalso. rewrite <- Hlwt, Hzero in H0. discriminate.
  - ok_inv. left. congruence.
Qed.


End DigRuns.




(** ** C6: the blind period *)

Lemma is_scheduler_click_is_click a :
  is_scheduler_click a = true -> is_click a = true.
Proof. destruct a as [| [] | | |]; simpl; congruence. Qed.

Lemma no_click_no_scheduler_click started :
  filter is_click started = [] -> has_scheduler_click started = false.
Proof.
  unfold has_scheduler_click.
  induction started as [|a started IH]; simpl; [reflexivity|].
  destruct (is_click a) eqn:E; [discriminate|].
  intro H. rewrite (IH H), orb_false_r.
  destruct (is_scheduler_click a) eqn:Es; [|reflexivity].
  apply is_scheduler_click_is_click in Es. congruence.
Qed.

Section BlindFacts.

Variable float_pow : Q -> Q -> Q.

(** An iteration leaves [blind_until] alone and starts no scheduler click,
    or it passed the scheduler's gate and set the deadline. *)
Lemma iteration_blind d l f d' l' started :
  iteration float_pow d l f = Ok (d', l', started) ->
  (blind_until d' = blind_until d /\ has_scheduler_click started = false)
  \/ (blind_until d <= current_time_ms f
      /\ blind_until d' = current_time_ms f + post_click_blindness f).
Proof.
  intro H. apply iteration_inv in H.
  destruct H as (dz & de & sweet & dw & lw & aw & dc & lc & ac
                 & Hz & -> & Hs & Hw & Hc & Hd & ->).
  apply track_zone_outside in Hz. destruct Hz as (_ & _ & _ & _ & Hbz & _).
  assert (Hbw : blind_until dw = blind_until d
                /\ has_scheduler_click aw = false).
  { apply auto_walk_step_self in Hw.
    unfold check_target_engagement, check_line_movement in Hw.
    destruct (line_movement _ _ _) as [h m]. fields.
    destruct Hw as [[-> Hn]|(_ & -> & site & delay & -> & Hsite)]; fields.
    - split; [exact Hbz|]. now apply no_click_no_scheduler_click.
    - split; [exact Hbz|]. destruct site; simpl; congruence. }
  destruct Hbw as [Hbw Haw].
  assert (Hbd : blind_until d' = blind_until dc)
    by (apply complete_dig_self in Hd; destruct Hd as [->| ->]; reflexivity).
  unfold has_scheduler_click in *. rewrite existsb_app, Haw. simpl.
  apply click_scheduler_self in Hc.
  destruct Hc as [[-> ->]|(_ & _ & _ & Hgate & u & c & Hcase)].
  - left. split; [congruence|reflexivity].
  - right. rewrite <- Hbw. split; [exact Hgate|]. rewrite Hbd.
    destruct Hcase as [(x & -> & _)|(s & Hp & _)]; fields; [reflexivity|].
    apply perform_instant_click_self in Hp. destruct Hp as (-> & _).
    reflexivity.
Qed.

Lemma system_step_blind s e s' :
  system_step float_pow s e = Ok s' ->
  blind_invariant s ->
  (forall g ag, In (g, ag) (journal s) ->
     match e with
     | Iterate f => current_time_ms g <= current_time_ms f
     | _ => True
     end) ->
  blind_invariant s'.
Proof.
  intros H [Hpair Hlast] Hclock.
  destruct e as [f| |]; simpl in H.
  - apply bind_ok in H. destruct H as ([[d l] a] & Hit & H). ok_inv.
    apply iteration_blind in Hit. unfold blind_invariant. fields.
    assert (Hold : forall fi ai,
               In (fi, ai) (journal s) ->
               has_scheduler_click ai = true ->
               has_scheduler_click a = true ->
               current_time_ms fi + post_click_blindness fi
               <= current_time_ms f).
    { intros fi ai Hin Hi Ha.
      destruct Hit as [[_ Hno]|[Hgate _]]; [congruence|].
      destruct (Hlast fi ai Hin Hi) as [Hb|(g & ag & Hg & Hle)].
      - lra.
      - specialize (Hclock g ag Hg). simpl in Hclock. lra. }
    split.
    + intros i j fi ai fj aj Hij Hi Hj Hci Hcj.
      assert (Hjl : (j < List.length (journal s ++ [(f, a)]))%nat)
        by (apply nth_error_Some; congruence).
      rewrite length_app in Hjl. simpl in Hjl.
      destruct (Nat.eq_dec j (List.length (journal s))) as [->|Hne].
      * rewrite nth_error_app2 in Hj by lia.
        rewrite Nat.sub_diag in Hj. simpl in Hj. ok_inv.
        rewrite nth_error_app1 in Hi by lia.
        apply nth_error_In in Hi. injection Hj as <- <-. eauto.
      * rewrite nth_error_app1 in Hi by lia.
        rewrite nth_error_app1 in Hj by lia. eauto.
    + intros fi ai Hin Hci. apply in_app_or in Hin.
      destruct Hin as [Hin|[E|[]]].
      * destruct Hit as [[Hsame _]|[Hgate Hset]].
        -- destruct (Hlast fi ai Hin Hci) as [Hb|(g & ag & Hg & Hle)].
           ++ left. rewrite Hsame. exact Hb.
           ++ right. exists g, ag. split; [apply in_or_app; auto|exact Hle].
        -- right. exists f, a. split; [apply in_or_app; simpl; auto|].
           destruct (Hlast fi ai Hin Hci) as [Hb|(g & ag & Hg & Hle)].
           ++ lra.
           ++ specialize (Hclock g ag Hg). simpl in Hclock. lra.
      * injection E as <- <-.
        destruct Hit as [[_ Hno]|[_ Hset]]; [congruence|].
        left. rewrite Hset. lra.
  - destruct (in_flight s); ok_inv; [split; assumption|].
    split; [exact Hpair|]. fields. exact Hlast.
  - ok_inv. split; [exact Hpair|]. fields.
    unfold instant_click. break_if; fields; exact Hlast.
Qed.

Lemma system_step_journal s e s' :
  system_step float_pow s e = Ok s' ->
  journal s' = journal s
               ++ match e with
                  | Iterate f =>
                      match iteration float_pow (self s) (locals s) f with
                      | Ok (_, _, a) => [(f, a)]
                      | Raise _ => []
                      end
                  | _ => []
                  end.
Proof.
  destruct e as [f| |]; simpl; intro H.
  - apply bind_ok in H. destruct H as ([[d l] a] & Hit & H). ok_inv.
    rewrite Hit. reflexivity.
  - destruct (in_flight s); ok_inv; rewrite app_nil_r; reflexivity.
  - ok_inv. rewrite app_nil_r. reflexivity.
Qed.

Lemma system_run_blind es : forall s s',
  system_run float_pow s es = Ok s' ->
  blind_invariant s ->
  clock_ordered (frames_of es) ->
  (forall g ag f, In (g, ag) (journal s) -> In f (frames_of es) ->
                  current_time_ms g <= current_time_ms f) ->
  blind_invariant s'.
Proof.
  induction es as [|e es IH]; intros s s' H Hinv Hsorted Hclock.
  - simpl in H. ok_inv. exact Hinv.
  - simpl in H. apply bind_ok in H. destruct H as (s1 & Hstep & Hrun).
    apply (IH s1 s' Hrun).
    + apply (system_step_blind s e s1 Hstep Hinv).
      intros g ag Hg. destruct e; [|exact I|exact I].
      apply (Hclock g ag f Hg). simpl. auto.
    + destruct e; simpl in Hsorted; [|exact Hsorted|exact Hsorted].
      now inversion Hsorted.
    + intros g ag f Hg Hf.
      rewrite (system_step_journal s e s1 Hstep) in Hg.
      apply in_app_or in Hg. destruct Hg as [Hg|Hg].
      * apply (Hclock g ag f Hg). destruct e; simpl; auto.
      * destruct e as [f0| |]; try contradiction.
        destruct (iteration float_pow (self s) (locals s) f0)
          as [[[? ?] ?]|]; [|contradiction].
        destruct Hg as [E|[]]. injection E as <- <-.
        simpl in Hsorted. inversion Hsorted as [|? ? _ Hall]. subst.
        rewrite Forall_forall in Hall. now apply Hall.
Qed.

End BlindFacts.

(** C6 (amended). Every click started by the scheduler (a direct instant
    click or a predictive delayed click) is started at a clock not before
    the current blind deadline and sets the deadline to
    [now + post_click_blindness].  Along any run of the loop among its click
    threads, with frame clocks that never run backwards, of two frames that
    each start a scheduler click the later one's clock is at or past the
    deadline set by the earlier one.  The auto-walk clicks (start click and
    retry click) neither set nor consult the deadline. *)
Theorem scheduler_clicks_respect_blind_period float_pow :
  (forall d l f d' l' started,
      iteration float_pow d l f = Ok (d', l', started) ->
      has_scheduler_click started = true ->
      blind_until d <= current_time_ms f
      /\ blind_until d' = current_time_ms f + post_click_blindness f)
  /\ (forall s es s' i j fi ai fj aj,
      journal s = [] ->
      clock_ordered (frames_of es) ->
      system_run float_pow s es = Ok s' ->
      (i < j)%nat ->
      nth_error (journal s') i = Some (fi, ai) ->
      nth_error (journal s') j = Some (fj, aj) ->
      has_scheduler_click ai = true ->
      has_scheduler_click aj = true ->
      current_time_ms fi + post_click_blindness fi <= current_time_ms fj).
Proof.
  split.
  - intros d l f d' l' started H Hc.
    apply iteration_blind in H. destruct H as [[_ Hno]|H]; [congruence|exact H].
  - intros s es s' i j fi ai fj aj Hj Hsorted Hrun.
    assert (Hinv : blind_invariant s').
    { apply (system_run_blind float_pow es s s' Hrun).
      - split; rewrite Hj.
        + intros i0 j0 ? ? ? ? _ Hi0. destruct i0; discriminate.
        + intros ? ? [].
      - exact Hsorted.
      - rewrite Hj. intros ? ? ? []. }
    destruct Hinv as [Hpair _]. apply Hpair.
Qed.

Lemma scheduler_clicks_respect_blind_period_witness :
  Py.leb (blind_until hunting) 5000 = true
  /\ (5000 + 50 <= 5050).
Proof.
  split.
  - apply py_leb_le.
    apply (proj1 (scheduler_clicks_respect_blind_period unit_pow)
             hunting init_Locals (centred_frame 5000 1)
             (set_click_thread_pool [1%nat]
                (set_blind_until (5000 + 0)
                   (set_target_engaged true
                      (set_line_moving_history
                         [10; 20; 30; 40; 50; 60; 70; 80; 85; 90; 100]%Z
                         (set_frames_since_last_zone_detection 0%Z hunting)))))
             init_Locals
             [SaveDebugScreenshot false 1; StartInstantClick 1]).
    + vm_compute. reflexivity.
    + reflexivity.
  - destruct (system_run unit_pow ready_to_click spaced_clicks)
      as [s'|] eqn:Hrun; [|vm_compute in Hrun; discriminate].
    apply (proj2 (scheduler_clicks_respect_blind_period unit_pow)
             ready_to_click spaced_clicks s' 0%nat 1%nat
             (still_frame 5000 100 (Some green_zone))
             [SaveDebugScreenshot false 1; StartInstantClick 0]
             (still_frame 5050 100 (Some green_zone))
             [SaveDebugScreenshot false 1; StartInstantClick 0]).
    + reflexivity.
    + repeat constructor. unfold Qle. simpl. lia.
    + exact Hrun.
    + lia.
    + vm_compute in Hrun. injection Hrun as <-. reflexivity.
    + vm_compute in Hrun. injection Hrun as <-. reflexivity.
    + reflexivity.
    + reflexivity.
Defined.

(** C6, as stated, fails: the start click of auto-walk at clock 5000 sets no
    blind deadline ([blind_until] is still 0), and a direct click follows at
    clock 5016, inside the 50 ms [post_click_blindness] window of the
    first. *)
Lemma start_click_sets_no_blind_deadline :
  Py.returns (system_run unit_pow about_to_click (firstn 1 start_then_direct))
    (fun s =>
       map snd (journal s) = [[StartClick start_click 0]]
       /\ blind_until (self s) = 0)
  /\ Py.returns (system_run unit_pow about_to_click start_then_direct)
       (fun s =>
          map (fun e => (current_time_ms (fst e),
                         post_click_blindness (fst e), snd e)) (journal s)
          = [(5000, 50, [StartClick start_click 0]);
             (5016, 50, [SaveDebugScreenshot false 1; StartInstantClick 0])])
  /\ Py.ltb 5016 (5000 + 50) = true.
Proof. vm_compute. repeat split. Qed.

(** ** C1: the click token *)

Lemma no_click_facts started :
  filter is_click started = [] ->
  filter is_start_click started = []
  /\ has_click started = false
  /\ forall tid, ~ In (StartInstantClick tid) started.
Proof.
  unfold has_click.
  induction started as [|a started IH]; simpl; [auto|].
  destruct (is_click a) eqn:E; [discriminate|].
  intro H. destruct (IH H) as (Hs & Hc & Hi).
  destruct a; simpl in *; try discriminate; repeat split; auto;
    intros t [C|C]; try discriminate; eapply Hi; eauto.
Qed.

Section TokenFacts.

Variable float_pow : Q -> Q -> Q.

(** What one iteration does with the click token. *)
Lemma iteration_token d l f d' l' started :
  iteration float_pow d l f = Ok (d', l', started) ->
  (click_lock d = true -> has_click started = false /\ click_lock d' = true)
  /\ (click_lock d = false ->
      List.length (filter is_start_click started)
      = if click_lock d' then 1%nat else 0%nat)
  /\ (forall tid, In (StartInstantClick tid) started ->
      click_lock d = false /\ click_lock d' = false)
  /\ ((List.length (click_thread_pool d) <= max_click_threads)%nat ->
      (List.length (click_thread_pool d') <= max_click_threads)%nat).
Proof.
  intro H. apply iteration_inv in H.
  destruct H as (dz & de & sweet & dw & lw & aw & dc & lc & ac
                 & Hz & -> & Hs & Hw & Hc & Hd & ->).
  apply track_zone_outside in Hz.
  destruct Hz as (_ & _ & _ & Hlz & _ & _ & _ & Hpz & _).
  unfold check_target_engagement, check_line_movement in Hw.
  destruct (line_movement _ _ _) as [h m]. fields.
  set (de := set_target_engaged _ (set_line_moving_history h dz)) in *.
  assert (Hlde : click_lock de = click_lock d) by exact Hlz.
  assert (Hpde : click_thread_pool de = click_thread_pool d) by exact Hpz.
  assert (Hld : click_lock d' = click_lock dc
                /\ click_thread_pool d' = click_thread_pool dc)
    by (apply complete_dig_self in Hd; destruct Hd as [->| ->]; auto).
  destruct Hld as [Hld Hpd]. rewrite Hld, Hpd. clear Hd Hld Hpd.
  apply auto_walk_step_self in Hw. apply click_scheduler_self in Hc.
  unfold has_click. rewrite filter_app, length_app, existsb_app.
  destruct Hw as [[-> Hnone]|(Hfree & -> & site & delay & -> & _)].
  - destruct (no_click_facts aw Hnone) as (Hns & Hnc & Hni).
    unfold has_click in Hnc. rewrite Hns, Hnc. cbn [List.length orb plus].
    assert (Hin : forall tid rest,
               In (StartInstantClick tid) (aw ++ rest) ->
               In (StartInstantClick tid) rest).
    { intros tid rest Hin. apply in_app_or in Hin.
      destruct Hin as [Hin|Hin]; [|exact Hin]. exfalso. eapply Hni; eauto. }
    destruct Hc as [[-> ->]|(Hfw & _ & _ & _ & u & c & Hcase)].
    + rewrite Hlde, Hpde. split; [|split; [|split]].
      * intro E. split; [reflexivity|exact E].
      * intro E. rewrite E. reflexivity.
      * intros tid Hi. apply Hin in Hi. destruct Hi.
      * auto.
    + rewrite Hlde in Hfw.
      destruct Hcase as [(x & -> & ->)|(s & Hp & ->)]; fields.
      * split; [|split; [|split]].
        -- intro E. congruence.
        -- intros _. reflexivity.
        -- intros tid Hi. apply Hin in Hi.
           destruct Hi as [C|[C|[]]]; discriminate.
        -- rewrite <- Hpde. auto.
      * apply perform_instant_click_self in Hp.
        destruct Hp as (Hdc & Hpool & Hs').
        assert (Hlc : click_lock dc = false)
          by (rewrite Hdc; fields; congruence).
        rewrite Hlc. split; [|split; [|split]].
        -- intro E. congruence.
        -- intros _. destruct Hs' as [->| ->]; reflexivity.
        -- intros tid _. split; [exact Hfw|reflexivity].
        -- fields. rewrite <- Hpde. exact Hpool.
  - rewrite Hlde in Hfree.
    destruct Hc as [[-> ->]|(Hfw & _)]; [|fields; discriminate].
    fields. split; [|split; [|split]].
    + intro E. congruence.
    + intros _. reflexivity.
    + intros tid [C|[]]. discriminate.
    + rewrite <- Hpde. auto.
Qed.



End TokenFacts.




(** * Further properties of the frame loop *)

(** ** A stopped bot *)


Lemma engagement_outside d line_pos fps :
  same_outside_zone d
    (set_target_engaged (target_engaged d)
       (set_line_moving_history (line_moving_history d)
          (fst (check_target_engagement d line_pos fps)))).
Proof.
  unfold check_target_engagement, check_line_movement, same_outside_zone.
  destruct (line_movement _ _ _). fields. tauto.
Qed.

Section StoppedFacts.

Variable float_pow : Q -> Q -> Q.


Lemma click_scheduler_no_sweet_spot d l f allow :
  click_scheduler float_pow d l f None allow = Ok (d, l, []).
Proof. reflexivity. Qed.

(** The part of [self] an iteration hands to the state machine: everything
    outside the zone tracker is as before, except the engagement fields. *)
Lemma iteration_prefix d f dz :
  track_zone d f = Ok dz ->
  let de := set_target_engaged
              (snd (check_target_engagement dz (line_pos f) (game_fps f)))
              (fst (check_target_engagement dz (line_pos f) (game_fps f))) in
  running de = running d
  /\ click_count de = click_count d
  /\ dig_count de = dig_count d
  /\ click_lock de = click_lock d
  /\ blind_until de = blind_until d
  /\ click_thread_pool de = click_thread_pool d
  /\ startup_time de = startup_time d
  /\ smoothed_zone_x de = smoothed_zone_x dz
  /\ smoothed_zone_w de = smoothed_zone_w dz.
Proof.
  intro H. apply track_zone_outside in H.
  destruct H as (H1 & H2 & H3 & H4 & H5 & _ & _ & H8 & H9).
  unfold check_target_engagement, check_line_movement.
  destruct (line_movement _ _ _). fields. tauto.
Qed.

End StoppedFacts.



(** ** When the scheduler may click *)

Lemma auto_walk_step_no_scheduler_click d l f d' l' a :
  auto_walk_step d l f = (d', l', a) -> has_scheduler_click a = false.
Proof.
  intro H. apply auto_walk_step_self in H.
  destruct H as [[_ Hn]|(_ & _ & site & delay & -> & Hsite)].
  - now apply no_click_no_scheduler_click.
  - destruct site; simpl; congruence.
Qed.

Lemma auto_walk_step_running d l f d' l' a :
  auto_walk_step d l f = (d', l', a) ->
  running d' = running d /\ target_engaged d' = target_engaged d
  /\ startup_time d' = startup_time d
  /\ smoothed_zone_x d' = smoothed_zone_x d.
Proof.
  intro H. apply auto_walk_step_self in H.
  destruct H as [[-> _]|(_ & -> & _)]; fields; auto.
Qed.

Lemma auto_walk_step_engaged_digging d l f d' l' a :
  auto_walk_step d l f = (d', l', a) ->
  running d = true -> auto_walk_enabled f = true -> is_selling f = false ->
  target_engaged d = true ->
  auto_walk_state l' = digging ->
  target_disengaged_time l' = 0.
Proof.
  unfold auto_walk_step, step_move, step_click_to_start,
    step_wait_for_target, step_digging.
  intros H Hr Ha Hs He Hd. rewrite Hr, Ha, Hs, He in H. simpl in H.
  repeat (break_match; ok_inv); fields; auto; congruence.
Qed.

Section SchedulerGate.

Variable float_pow : Q -> Q -> Q.

Lemma click_scheduler_gate d l f sweet allow d' l' a :
  click_scheduler float_pow d l f sweet allow = Ok (d', l', a) ->
  has_scheduler_click a = true ->
  running d = true /\ allow = true /\ sweet <> None
  /\ is_past_startup_grace d f = true
  /\ running d' = true /\ target_engaged d' = target_engaged d
  /\ smoothed_zone_x d' = smoothed_zone_x d.
Proof.
  unfold click_scheduler. intros H Hc.
  destruct sweet as [[[c s] e]|]; [|ok_inv; discriminate].
  break_if; [|ok_inv; discriminate].
  repeat (apply andb_prop in Heqb; destruct Heqb as [Heqb ?]).
  apply bind_ok in H. destruct H as ([[[sc delay] used] conf] & _ & H).
  destruct sc; [|ok_inv; discriminate].
  split; [assumption|]. split; [assumption|]. split; [discriminate|].
  split; [assumption|].
  break_if.
  - destruct (perform_instant_click _ f) as [d1 st] eqn:Hp. ok_inv.
    apply perform_instant_click_self in Hp. destruct Hp as (-> & _).
    fields. auto.
  - ok_inv. fields. auto.
Qed.

Lemma iteration_scheduler_click d l f d' l' started :
  iteration float_pow d l f = Ok (d', l', started) ->
  has_scheduler_click started = true ->
  running d = true
  /\ target_engaged d' = true
  /\ smoothed_zone_x d' <> None
  /\ is_past_startup_grace d f = true
  /\ (auto_walk_enabled f = true ->
      is_selling f = false /\ auto_walk_state l' = digging).
Proof.
  intros H Hclick. apply iteration_inv in H.
  destruct H as (dz & de & sweet & dw & lw & aw & dc & lc & ac
                 & Hz & Hde & Hs & Hw & Hc & Hd & ->).
  destruct (iteration_prefix d f dz Hz)
    as (Hrun & _ & _ & _ & _ & _ & Hstart & Hsx & _).
  cbv zeta in *. rewrite <- Hde in *.
  unfold has_scheduler_click in Hclick. rewrite existsb_app in Hclick.
  pose proof (auto_walk_step_no_scheduler_click _ _ _ _ _ _ Hw) as Hnw.
  unfold has_scheduler_click in Hnw. rewrite Hnw in Hclick. simpl in Hclick.
  destruct (auto_walk_step_running _ _ _ _ _ _ Hw) as (Hrw & Hew & Hsw & Hxw).
  pose proof (click_scheduler_locals _ _ _ _ _ _ _ _ _ Hc) as Hlc.
  destruct (click_scheduler_gate _ _ _ _ _ _ _ _ Hc Hclick)
    as (Hrc & Hallow & Hsweet & Hgrace & _ & Hec & Hxc).
  assert (Hsome : smoothed_zone_x de <> None).
  { unfold sweet_spot in Hs. destruct (smoothed_zone_x de); [discriminate|].
    ok_inv. contradiction. }
  assert (Hfin : target_engaged d' = target_engaged dc
                 /\ smoothed_zone_x d' = smoothed_zone_x dc).
  { pose proof (complete_dig_self _ _ _ _ _ Hd) as [->| ->]; fields; auto. }
  destruct Hfin as [Hfe Hfx].
  assert (Hengaged : target_engaged dw = true).
  { unfold should_allow_clicking in Hallow.
    destruct (auto_walk_enabled f); [|exact Hallow].
    apply andb_prop in Hallow. tauto. }
  split; [congruence|]. split; [congruence|]. split; [congruence|].
  split.
  { unfold is_past_startup_grace in *. rewrite <- Hstart, <- Hsw.
    exact Hgrace. }
  intro Ha. unfold should_allow_clicking in Hallow. rewrite Ha in Hallow.
  apply andb_prop in Hallow. destruct Hallow as [Hallow _].
  apply andb_prop in Hallow. destruct Hallow as [Hdig Hsell].
  apply negb_true_iff in Hsell. split; [exact Hsell|].
  assert (Hlw : auto_walk_state lw = digging)
    by (destruct (auto_walk_state lw); simpl in Hdig; congruence).
  assert (Hzero : target_disengaged_time lw = 0).
  { eapply auto_walk_step_engaged_digging; eauto; congruence. }
  assert (Hlcw : auto_walk_state lc = digging
                 /\ target_disengaged_time lc = 0)
    by (destruct Hlc as [->|[x ->]]; fields; auto).
  destruct Hlcw as [Hlcs Hlct].
  unfold complete_dig in Hd. rewrite Hlct in Hd.
  change (Py.ltb 0 0) with false in Hd.
  rewrite andb_false_r in Hd. simpl in Hd. ok_inv. exact Hlcs.
Qed.

End SchedulerGate.

(** X2. The scheduler starts a click (direct or predictive) only while the
    bot is running, the target is engaged in this very frame and a smoothed
    zone exists; with auto-walk enabled, only in state [digging] with no
    sale in progress, and such a frame never completes the dig. *)
Theorem scheduler_clicks_only_when_engaged
  float_pow d l f d' l' started :
  iteration float_pow d l f = Ok (d', l', started) ->
  has_scheduler_click started = true ->
  running d = true
  /\ target_engaged d' = true
  /\ smoothed_zone_x d' <> None
  /\ (auto_walk_enabled f = true ->
      is_selling f = false /\ auto_walk_state l' = digging).
Proof.
  intros H Hc.
  destruct (iteration_scheduler_click float_pow d l f d' l' started H Hc)
    as (H1 & H2 & H3 & _ & H5).
  auto.
Qed.

Lemma scheduler_clicks_only_when_engaged_witness :
  Py.returns (iteration unit_pow hunting init_Locals (centred_frame 5000 1))
    (fun r => target_engaged (fst (fst r)) = true).
Proof.
  destruct (iteration unit_pow hunting init_Locals (centred_frame 5000 1))
    as [[[d' l'] started]|] eqn:E; [|vm_compute in E; discriminate].
  simpl.
  apply (scheduler_clicks_only_when_engaged unit_pow hunting init_Locals
           (centred_frame 5000 1) d' l' started E).
  vm_compute in E. injection E as _ _ <-. reflexivity.
Defined.

(** ** What an iteration leaves to the zone tracker and to the start-up *)

Section KeepFacts.

Variable float_pow : Q -> Q -> Q.

Lemma click_scheduler_keeps d l f sweet allow d' l' a :
  click_scheduler float_pow d l f sweet allow = Ok (d', l', a) ->
  same_zone d d' /\ startup_time d' = startup_time d
  /\ running d' = running d.
Proof.
  intro H. apply click_scheduler_self in H. unfold same_zone.
  destruct H as [[-> _]|(_ & _ & _ & _ & u & c & [(x & -> & _)|(s & Hp & _)])];
    fields; [tauto|tauto|].
  apply perform_instant_click_self in Hp. destruct Hp as (-> & _).
  fields. tauto.
Qed.

Lemma iteration_keeps d l f d' l' a :
  iteration float_pow d l f = Ok (d', l', a) ->
  exists dz,
    track_zone d f = Ok dz
    /\ same_zone dz d'
    /\ startup_time d' = startup_time d
    /\ running d' = running d.
Proof.
  intro H. apply iteration_inv in H.
  destruct H as (dz & de & sweet & dw & lw & aw & dc & lc & ac
                 & Hz & Hde & Hs & Hw & Hc & Hd & ->).
  exists dz. split; [exact Hz|].
  destruct (iteration_prefix d f dz Hz)
    as (Hrun & _ & _ & _ & _ & _ & Hstart & _).
  cbv zeta in *. rewrite <- Hde in *.
  assert (Hze : same_zone dz de).
  { rewrite Hde. unfold check_target_engagement, check_line_movement, same_zone.
    destruct (line_movement _ _ _). fields. tauto. }
  assert (Hzw : same_zone de dw /\ startup_time dw = startup_time de
                /\ running dw = running de).
  { apply auto_walk_step_self in Hw. unfold same_zone.
    destruct Hw as [[-> _]|(_ & -> & _)]; fields; tauto. }
  pose proof (click_scheduler_keeps _ _ _ _ _ _ _ _ Hc) as Hzc.
  assert (Hzd : same_zone dc d' /\ startup_time d' = startup_time dc
                /\ running d' = running dc).
  { apply complete_dig_self in Hd. unfold same_zone.
    destruct Hd as [->| ->]; fields; tauto. }
  unfold same_zone in *. intuition congruence.
Qed.

Lemma system_step_keeps s e s' :
  system_step float_pow s e = Ok s' ->
  startup_time (self s') = startup_time (self s)
  /\ running (self s') = running (self s).
Proof.
  destruct e as [f| |]; simpl; intro H.
  - apply bind_ok in H. destruct H as ([[d l] a] & Hit & H). ok_inv. fields.
    apply iteration_keeps in Hit. destruct Hit as (dz & _ & _ & H1 & H2). auto.
  - destruct (in_flight s); ok_inv; auto.
  - ok_inv. fields. unfold instant_click. break_if; auto.
Qed.

Lemma system_run_startup_grace t es : forall s s',
  startup_time (self s) = Some t ->
  Forall (fun f => current_time_ms f - t <= 100) (frames_of es) ->
  Forall (fun e => has_scheduler_click (snd e) = false) (journal s) ->
  system_run float_pow s es = Ok s' ->
  Forall (fun e => has_scheduler_click (snd e) = false) (journal s').
Proof.
  induction es as [|e es IH]; intros s s' Ht Hfs Hj H; simpl in H.
  - ok_inv. exact Hj.
  - apply bind_ok in H. destruct H as (s1 & Hstep & Hrun).
    pose proof (system_step_keeps s e s1 Hstep) as [Hst _].
    apply (IH s1 s'); [congruence| | |exact Hrun].
    + destruct e; simpl in Hfs; [now inversion Hfs|exact Hfs|exact Hfs].
    + destruct e as [f| |]; simpl in Hstep.
      * apply bind_ok in Hstep. destruct Hstep as ([[d l] a] & Hit & Hstep).
        ok_inv. fields. apply Forall_app. split; [exact Hj|].
        constructor; [|constructor]. simpl.
        destruct (has_scheduler_click a) eqn:Hc; [|reflexivity]. exfalso.
        destruct (iteration_scheduler_click float_pow _ _ _ _ _ _ Hit Hc)
          as (_ & _ & _ & Hgrace & _).
        unfold is_past_startup_grace in Hgrace. rewrite Ht in Hgrace.
        apply py_ltb_lt in Hgrace. simpl in Hfs. inversion Hfs. subst. lra.
      * destruct (in_flight s); ok_inv; exact Hj.
      * ok_inv. exact Hj.
Qed.

Lemma system_run_pool es : forall s s',
  (List.length (click_thread_pool (self s)) <= max_click_threads)%nat ->
  system_run float_pow s es = Ok s' ->
  (List.length (click_thread_pool (self s')) <= max_click_threads)%nat.
Proof.
  induction es as [|e es IH]; intros s s' Hp H; simpl in H.
  - ok_inv. exact Hp.
  - apply bind_ok in H. destruct H as (s1 & Hstep & Hrun).
    apply (IH s1 s'); [|exact Hrun].
    destruct e as [f| |]; simpl in Hstep.
    + apply bind_ok in Hstep. destruct Hstep as ([[d l] a] & Hit & Hstep).
      ok_inv. fields. apply iteration_token in Hit.
      destruct Hit as (_ & _ & _ & Hpool). auto.
    + destruct (in_flight s); ok_inv; auto.
    + ok_inv. fields. unfold instant_click. break_if; auto.
Qed.

End KeepFacts.

(** X3. For the first 100 ms after the bot is started the scheduler starts
    no click: along any run from the freshly started state, every frame
    whose clock is at most 100 ms past the start time is journalled without
    a direct or predictive click. *)
Theorem no_scheduler_click_during_startup_grace
  float_pow t d l n es s' :
  running d = false ->
  Forall (fun f => current_time_ms f - t <= 100) (frames_of es) ->
  system_run float_pow
    {| self := toggle_detection_thread_safe true t d; locals := l;
       in_flight := n; journal := [] |} es = Ok s' ->
  Forall (fun e => has_scheduler_click (snd e) = false) (journal s').
Proof.
  intros Hr Hfs H.
  eapply system_run_startup_grace; [|exact Hfs| |exact H].
  - fields. unfold toggle_detection_thread_safe. rewrite Hr. simpl.
    destruct (click_lock _); reflexivity.
  - constructor.
Qed.

Lemma no_scheduler_click_during_startup_grace_witness :
  Py.returns
    (system_run unit_pow
       {| self := toggle_detection_thread_safe true 4950
                    (set_running false hunting);
          locals := init_Locals; in_flight := 0; journal := [] |}
       [Iterate (centred_frame 5000 1)])
    (fun s => Forall (fun e => has_scheduler_click (snd e) = false)
                (journal s)).
Proof.
  destruct (system_run unit_pow _ [Iterate (centred_frame 5000 1)])
    as [s'|] eqn:E; [|vm_compute in E; discriminate].
  simpl.
  apply (no_scheduler_click_during_startup_grace unit_pow 4950
           (set_running false hunting) init_Locals 0%nat
           [Iterate (centred_frame 5000 1)] s').
  - reflexivity.
  - repeat constructor. unfold Qle. simpl. lia.
  - exact E.
Defined.

(** X4. Along any run of the loop among its click threads the pool of
    instant-click threads never holds more than [_max_click_threads = 3]
    threads, provided it starts within that bound. *)
Theorem click_thread_pool_stays_bounded float_pow s es s' :
  (List.length (click_thread_pool (self s)) <= 3)%nat ->
  system_run float_pow s es = Ok s' ->
  (List.length (click_thread_pool (self s')) <= 3)%nat.
Proof. apply system_run_pool. Qed.

Lemma click_thread_pool_stays_bounded_witness :
  Py.returns (system_run unit_pow ready_to_click two_direct_clicks)
    (fun s => (List.length (click_thread_pool (self s)) <= 3)%nat).
Proof.
  destruct (system_run unit_pow ready_to_click two_direct_clicks)
    as [s'|] eqn:E; [|vm_compute in E; discriminate].
  simpl.
  apply (click_thread_pool_stays_bounded unit_pow ready_to_click
           two_direct_clicks s'); [simpl; lia|exact E].
Defined.

(** ** The zone tracker's invariants *)


Lemma smooth_zone_lock_fields d f raw d' :
  smooth_zone d f raw = Ok d' ->
  is_color_locked d' = is_color_locked d
  /\ locked_color_hsv d' = locked_color_hsv d
  /\ locked_color_hex d' = locked_color_hex d.
Proof.
  unfold smooth_zone. intro H.
  repeat (break_match; ok_inv); fields; auto.
Qed.





Section TypeErrorFacts.

Variable float_pow : Q -> Q -> Q.








End TypeErrorFacts.


(** X6. While the colour lock is held the locked colour does not drift: an
    iteration of the tracker that starts and ends locked leaves the locked
    mean HSV, the display hex colour and the low-saturation flag exactly as
    they were, whatever contour the frame shows. *)
Theorem locked_colour_is_stable d f d' :
  track_zone d f = Ok d' ->
  is_color_locked d = true ->
  is_color_locked d' = true ->
  locked_color_hsv d' = locked_color_hsv d
  /\ locked_color_hex d' = locked_color_hex d
  /\ is_low_sat_lock d' = is_low_sat_lock d.
Proof.
  unfold track_zone, select_zone. intros H Hl Hl'. rewrite Hl in H.
  assert (Hsel : exists raw,
             (match zone_candidate f with
              | Some c => (d, Some (x_temp c, w_temp c))
              | None => (d, None)
              end) = (d, raw))
    by (destruct (zone_candidate f); eauto).
  destruct Hsel as (raw & Hsel). rewrite Hsel in H.
  apply bind_ok in H. destruct H as (d2 & E2 & H). ok_inv.
  destruct (smooth_zone_lock_fields _ _ _ _ E2) as (Ha & Hb & Hc).
  assert (Hs : is_low_sat_lock d2 = is_low_sat_lock d).
  { unfold smooth_zone in E2. repeat (break_match; ok_inv); reflexivity. }
  unfold release_color_lock in *.
  destruct (frames_since_last_zone_detection d2 >? zone_timeout_frames f)%Z;
    fields; [discriminate|]. auto.
Qed.

Lemma locked_colour_is_stable_witness :
  Py.returns (track_zone locked_grey (frame_at 60 1016 (-1) (Some green_zone)))
    (fun d' => locked_color_hsv d' = Some (mean_hsv grey_zone)
               /\ locked_color_hex d' = Some (mean_hex grey_zone)
               /\ is_low_sat_lock d' = true).
Proof.
  destruct (track_zone locked_grey (frame_at 60 1016 (-1) (Some green_zone)))
    as [d'|] eqn:E; [|vm_compute in E; discriminate].
  simpl.
  apply (locked_colour_is_stable locked_grey
           (frame_at 60 1016 (-1) (Some green_zone)) d' E).
  - reflexivity.
  - vm_compute in E. injection E as <-. reflexivity.
Defined.



(** ** Smoothing and the sweet spot *)

Lemma adaptive_smoothing_le_1 alpha w pc wc :
  adaptive_smoothing alpha w pc wc <= 1.
Proof.
  unfold adaptive_smoothing, Py.min.
  repeat break_if; reflect_all; lra.
Qed.

Lemma convex_between a raw s :
  0 <= a -> a <= 1 ->
  (s <= raw -> s <= a * raw + (1 - a) * s <= raw)
  /\ (raw <= s -> raw <= a * raw + (1 - a) * s <= s).
Proof.
  intros H0 H1.
  assert (E1 : a * raw + (1 - a) * s - s == a * (raw - s)) by ring.
  assert (E2 : raw - (a * raw + (1 - a) * s) == (1 - a) * (raw - s)) by ring.
  split; intro H.
  - assert (0 <= a * (raw - s)) by (apply Qmult_le_0_compat; lra).
    assert (0 <= (1 - a) * (raw - s)) by (apply Qmult_le_0_compat; lra).
    lra.
  - assert (0 <= a * (s - raw)) by (apply Qmult_le_0_compat; lra).
    assert (0 <= (1 - a) * (s - raw)) by (apply Qmult_le_0_compat; lra).
    assert (a * (s - raw) == - (a * (raw - s))) by ring.
    assert ((1 - a) * (s - raw) == - ((1 - a) * (raw - s))) by ring.
    lra.
Qed.

(** X8. Smoothing never overshoots: for a smoothing factor [alpha >= 0] the
    new smoothed position lies between the old smoothed position and the
    raw one, and likewise the width, also when the adaptive boost of 0.1
    applies. *)
Theorem smoothing_never_overshoots d f raw_zone_x raw_zone_w sx sw d' :
  smoothed_zone_x d = Some sx ->
  smoothed_zone_w d = Some sw ->
  0 <= zone_smoothing_factor f ->
  smooth_zone d f (Some (raw_zone_x, raw_zone_w)) = Ok d' ->
  exists sx' sw',
    smoothed_zone_x d' = Some sx' /\ smoothed_zone_w d' = Some sw'
    /\ (sx <= inject_Z raw_zone_x -> sx <= sx' <= inject_Z raw_zone_x)
    /\ (inject_Z raw_zone_x <= sx -> inject_Z raw_zone_x <= sx' <= sx)
    /\ (sw <= inject_Z raw_zone_w -> sw <= sw' <= inject_Z raw_zone_w)
    /\ (inject_Z raw_zone_w <= sw -> inject_Z raw_zone_w <= sw' <= sw).
Proof.
  intros Hx Hw Ha H. unfold smooth_zone in H. fields.
  rewrite Hx, Hw in H. ok_inv. fields.
  set (a := adaptive_smoothing _ _ _ _).
  assert (H0 : 0 <= a) by (apply adaptive_smoothing_bounds; exact Ha).
  assert (H1 : a <= 1) by apply adaptive_smoothing_le_1.
  eexists _, _. split; [reflexivity|]. split; [reflexivity|].
  destruct (convex_between a (inject_Z raw_zone_x) sx H0 H1).
  destruct (convex_between a (inject_Z raw_zone_w) sw H0 H1).
  auto.
Qed.

Lemma smoothing_never_overshoots_witness :
  Py.returns
    (smooth_zone tracking_80_40 (still_frame 1000 (-1) None)
       (Some (100, 50)%Z))
    (fun d' => exists sx' sw',
       smoothed_zone_x d' = Some sx' /\ smoothed_zone_w d' = Some sw'
       /\ 80 <= sx' <= inject_Z 100 /\ 40 <= sw' <= inject_Z 50).
Proof.
  destruct (smooth_zone tracking_80_40 (still_frame 1000 (-1) None)
              (Some (100, 50)%Z)) as [d'|] eqn:E;
    [|vm_compute in E; discriminate].
  simpl.
  destruct (smoothing_never_overshoots tracking_80_40
              (still_frame 1000 (-1) None) 100 50 80 40 d')
    as (sx' & sw' & E1 & E2 & H1 & _ & H3 & _).
  - reflexivity.
  - reflexivity.
  - unfold Qle. simpl. lia.
  - exact E.
  - exists sx', sw'. split; [exact E1|]. split; [exact E2|].
    split; [apply H1|apply H3]; unfold Qle; simpl; lia.
Defined.

(** X9. The sweet spot is centred on the smoothed zone and symmetric about
    its centre, and for a zone of non-negative width and a width percentage
    between 0 and 100 it lies inside the zone:
    [x <= start <= centre <= end <= x + w]. *)
Theorem sweet_spot_lies_inside_zone d f sx sw c s e :
  smoothed_zone_x d = Some sx ->
  smoothed_zone_w d = Some sw ->
  sweet_spot d f = Ok (Some (c, s, e)) ->
  c == sx + sw / 2
  /\ c - s == e - c
  /\ e - s == sw * (dynamic_sweet_spot_width f / 100)
  /\ (0 <= sw -> 0 <= dynamic_sweet_spot_width f <= 100 ->
      sx <= s /\ s <= c /\ c <= e /\ e <= sx + sw).
Proof.
  intros Hx Hw H. unfold sweet_spot in H. rewrite Hx, Hw in H.
  injection H as <- <- <-.
  unfold Qdiv. change (/ 2) with (1 # 2). change (/ 100) with (1 # 100).
  split; [reflexivity|]. split; [ring|]. split; [ring|].
  intros Hsw [Hp0 Hp1].
  assert (0 <= sw * dynamic_sweet_spot_width f)
    by (apply Qmult_le_0_compat; assumption).
  assert (0 <= sw * (100 - dynamic_sweet_spot_width f))
    by (apply Qmult_le_0_compat; lra).
  assert (sw * (100 - dynamic_sweet_spot_width f)
          == 100 * sw - sw * dynamic_sweet_spot_width f) by ring.
  assert (sw * (dynamic_sweet_spot_width f * (1 # 100)) * (1 # 2)
          == (1 # 200) * (sw * dynamic_sweet_spot_width f)) by ring.
  repeat split; lra.
Qed.

Lemma sweet_spot_lies_inside_zone_witness :
  Py.returns (sweet_spot hunting approach_frame)
    (fun r => match r with
              | Some (c, s, e) => 80 <= s /\ s <= c /\ c <= e /\ e <= 80 + 40
              | None => False
              end).
Proof.
  destruct (sweet_spot hunting approach_frame) as [[[[c s] e]|]|] eqn:E;
    try (vm_compute in E; discriminate).
  simpl.
  apply (sweet_spot_lies_inside_zone hunting approach_frame 80 40 c s e);
    try reflexivity; try exact E;
    try (unfold Qle; simpl; lia); split; unfold Qle; simpl; lia.
Defined.

(** ** When a predictive click is scheduled *)

Lemma game_fps_ge_1 f : 1 <= game_fps f.
Proof.
  unfold game_fps, Py.max. break_if; reflect_all; lra.
Qed.

Lemma latency_adjustment_nonneg f :
  0 <= cached_system_latency f ->
  0 <= cached_system_latency f / 1000 * (120 / game_fps f) * (8 # 10).
Proof.
  intro H. pose proof (game_fps_ge_1 f) as Hf.
  assert (0 < / game_fps f) by (apply Qinv_lt_0_compat; lra).
  unfold Qdiv. change (/ 1000) with (1 # 1000).
  apply Qmult_le_0_compat; [|lra].
  apply Qmult_le_0_compat; [lra|].
  apply Qmult_le_0_compat; lra.
Qed.

Section PredictionFacts.

Variable float_pow : Q -> Q -> Q.

Lemma predict_click_fires f c s e delay used confidence :
  predict_click float_pow f c s e = Ok (true, delay, used, confidence) ->
  prediction_enabled f = true
  /\ line_pos f <> (-1)%Z
  /\ ((inject_Z (line_pos f) < c /\ 0 < velocity f)
      \/ (c < inject_Z (line_pos f) /\ velocity f < 0))
  /\ 0 < snd (predict_position f)
  /\ Qabs (fst (predict_position f) - c) <= (e - s) / 2
  /\ confidence
     = Py.max 0 (1 - Qabs (fst (predict_position f) - c) / ((e - s) / 2))
       * prediction_confidence f
  /\ prediction_confidence_threshold f
     * float_pow (game_fps f / 120) (15 # 100) <= confidence
  /\ delay = snd (predict_position f)
             - cached_system_latency f / 1000 * (120 / game_fps f) * (8 # 10)
  /\ 0 < delay
  /\ used = true.
Proof.
  unfold predict_click. intro H.
  destruct (prediction_enabled f); [|discriminate].
  destruct (Z.eqb_spec (line_pos f) (-1)) as [|Hline]; [discriminate|].
  cbn [negb andb] in H.
  destruct (_ || _) eqn:Hmove; [|discriminate].
  destruct (predict_position f) as [predicted_pos prediction_time].
  repeat (break_match; try discriminate). ok_inv. reflect_all.
  cbn [fst snd]. repeat split; auto.
  apply orb_prop in Hmove.
  destruct Hmove as [Hm|Hm]; apply andb_prop in Hm; destruct Hm as [H1 H2];
    apply py_ltb_lt in H1, H2; auto.
Qed.

End PredictionFacts.

(** X10. A predictive click is started only under the conditions of the
    prediction block: prediction enabled, line detected and moving towards
    the sweet-spot centre, a prediction with positive arrival time whose
    position is within the sweet-spot half-width, and a confidence at or
    above the frame-rate-scaled threshold.  Its delay is the arrival time
    minus the latency adjustment, is positive, and for a non-negative
    measured latency never exceeds the predicted arrival time; the token is
    taken. *)
Theorem predictive_click_only_when_confident
  float_pow d l f c s e allow d' l' started delay :
  click_scheduler float_pow d l f (Some (c, s, e)) allow
  = Ok (d', l', started) ->
  In (StartClick predictive_click delay) started ->
  prediction_enabled f = true
  /\ line_pos f <> (-1)%Z
  /\ ((inject_Z (line_pos f) < c /\ 0 < velocity f)
      \/ (c < inject_Z (line_pos f) /\ velocity f < 0))
  /\ 0 < snd (predict_position f)
  /\ Qabs (fst (predict_position f) - c) <= (e - s) / 2
  /\ prediction_confidence_threshold f
     * float_pow (game_fps f / 120) (15 # 100)
     <= Py.max 0 (1 - Qabs (fst (predict_position f) - c) / ((e - s) / 2))
        * prediction_confidence f
  /\ delay = snd (predict_position f)
             - cached_system_latency f / 1000 * (120 / game_fps f) * (8 # 10)
  /\ 0 < delay
  /\ (0 <= cached_system_latency f -> delay <= snd (predict_position f))
  /\ click_lock d = false /\ click_lock d' = true.
Proof.
  unfold click_scheduler. intros H Hin.
  break_if; [|ok_inv; destruct Hin].
  repeat (apply andb_prop in Heqb; destruct Heqb as [Heqb ?]).
  apply bind_ok in H. destruct H as ([[[sc dl] used] conf] & Hd & H).
  destruct sc; [|ok_inv; destruct Hin].
  assert (Hstart : dl = delay /\ Py.eqb dl 0 = false
                   /\ d' = set_click_lock true
                             (set_blind_until
                                (current_time_ms f + post_click_blindness f) d)).
  { destruct (Py.eqb dl 0) eqn:E.
    - exfalso. destruct (perform_instant_click _ f) as [d1 st] eqn:Hp. ok_inv.
      apply perform_instant_click_self in Hp. destruct Hp as (_ & _ & Hs).
      destruct Hin as [C|Hin]; [discriminate|].
      destruct Hs as [->| ->]; simpl in Hin; [contradiction|].
      destruct Hin as [C|[]]. discriminate.
    - ok_inv. destruct Hin as [C|[C|[]]]; [discriminate|].
      injection C as <-. auto. }
  destruct Hstart as (-> & Hnz & ->).
  unfold click_decision in Hd. apply bind_ok in Hd.
  destruct Hd as ([[[sc0 dl0] used0] conf0] & Hp & Hd).
  assert (Hsc : sc0 = true /\ dl0 = delay).
  { destruct sc0; [simpl in Hd; ok_inv; auto|].
    exfalso.
    destruct (predict_click_shape float_pow f c s e _ Hp)
      as [(cf & E)|(dx & cf & E & _)]; [|discriminate].
    injection E as -> -> ->. simpl in Hd.
    break_if; ok_inv. vm_compute in Hnz. discriminate. }
  destruct Hsc as [-> ->].
  apply predict_click_fires in Hp.
  destruct Hp as (P1 & P2 & P3 & P4 & P5 & P6 & P7 & P8 & P9 & _).
  rewrite P6 in P7.
  repeat split; auto.
  - intro Hlat. pose proof (latency_adjustment_nonneg f Hlat).
    rewrite P8. lra.
  - now apply negb_true_iff.
Qed.

Lemma predictive_click_only_when_confident_witness :
  0 < (1 # 20) - 10 / 1000 * (120 / game_fps approach_frame) * (8 # 10).
Proof.
  destruct (predictive_click_only_when_confident unit_pow hunting init_Locals
              approach_frame (200 # 2) (360 # 4) (440 # 4) true
              (set_click_lock true (set_blind_until (5000 + 50) hunting))
              (set_click_delay
                 ((1 # 20)
                  - 10 / 1000 * (120 / game_fps approach_frame) * (8 # 10))
                 init_Locals)
              [SaveDebugScreenshot true
                 (Py.max 0
                    (1 - Qabs (100 - (200 # 2))
                         / (((440 # 4) - (360 # 4)) / 2))
                  * (9 # 10));
               StartClick predictive_click
                 ((1 # 20)
                  - 10 / 1000 * (120 / game_fps approach_frame) * (8 # 10))]
              ((1 # 20)
               - 10 / 1000 * (120 / game_fps approach_frame) * (8 # 10)))
    as (_ & _ & _ & _ & _ & _ & _ & Hpos & _).
  - vm_compute. reflexivity.
  - right. left. reflexivity.
  - exact Hpos.
Defined.

(** ** Walk steps, retries and sales *)

Ltac bool_hyps :=
  repeat match goal with
  | H : negb _ = true |- _ => apply negb_true_iff in H
  | H : _ && _ = true |- _ => apply andb_prop in H; destruct H
  end.

(** X11. Auto-walk issues a walk step only when the bot is running with
    auto-walk enabled, in state [move], with no sale in progress or
    pending and the previous walk thread finished.  The step is the next
    entry of the walk pattern; the machine goes to [click_to_start] with the
    deadline [now + duration + 300 ms], where the duration is the entry's
    own ["duration"] if it has one and the [walk_duration] parameter
    otherwise, and the step's ["click"] entry (default [True]) decides
    whether a click follows. *)
Theorem walk_step_only_when_idle d l f d' l' a direction :
  auto_walk_step d l f = (d', l', a) ->
  In (StartWalk direction) a ->
  running d = true /\ auto_walk_enabled f = true /\ is_selling f = false
  /\ auto_walk_state l = move
  /\ pending_auto_sell l = false
  /\ walk_thread_alive f = false
  /\ direction = next_walk_direction f
  /\ a = [StartWalk direction]
  /\ d' = d
  /\ auto_walk_state l' = click_to_start
  /\ move_completed_time l'
     = current_time_ms f
       + match direction with
         | DictStep _ (Some duration) _ => duration
         | _ => walk_duration f
         end
       + 300
  /\ current_step_click_enabled l'
     = match direction with
       | DictStep _ _ (Some click) => click
       | _ => true
       end.
Proof.
  unfold auto_walk_step, step_move, step_click_to_start,
    step_wait_for_target, step_digging.
  intros H Hin.
  destruct (running d); [|simpl in H; ok_inv; destruct Hin].
  destruct (auto_walk_enabled f); [|simpl in H; ok_inv; destruct Hin].
  destruct (is_selling f); [simpl in H; ok_inv; destruct Hin|].
  cbn [negb andb] in H.
  destruct (auto_walk_state l);
    try (exfalso; repeat (break_match; ok_inv);
         try (destruct Hin as [C|[]]; discriminate C); now destruct Hin).
  destruct (_ && _ && _) eqn:Hdue.
  { exfalso. destruct (auto_sell_ready f); ok_inv;
      [destruct Hin as [C|[]]; discriminate C|destruct Hin]. }
  destruct (negb (pending_auto_sell l)) eqn:Hp; [|ok_inv; destruct Hin].
  destruct (negb (walk_thread_alive f)) eqn:Hw; [|ok_inv; destruct Hin].
  ok_inv. destruct Hin as [C|[]]. injection C as <-.
  bool_hyps. fields. repeat split; auto.
Qed.

Lemma walk_step_only_when_idle_witness :
  move_completed_time
    (snd (fst (auto_walk_step (set_running true init_DigTool) init_Locals
                 (timeout_frame 1000))))
  = 1000 + 500 + 300.
Proof.
  destruct (walk_step_only_when_idle (set_running true init_DigTool)
              init_Locals (timeout_frame 1000)
              (fst (fst (auto_walk_step (set_running true init_DigTool)
                           init_Locals (timeout_frame 1000))))
              (snd (fst (auto_walk_step (set_running true init_DigTool)
                           init_Locals (timeout_frame 1000))))
              [StartWalk (KeyStep "w")] (KeyStep "w"))
    as (_ & _ & _ & _ & _ & _ & _ & _ & _ & _ & Ht & _).
  - reflexivity.
  - left. reflexivity.
  - exact Ht.
Defined.

Lemma auto_walk_step_sale d l f d' l' a :
  auto_walk_step d l f = (d', l', a) ->
  (In StartAutoSell a ->
   running d = true /\ auto_walk_enabled f = true /\ is_selling f = false
   /\ auto_walk_state l = move /\ pending_auto_sell l = true
   /\ 0 < dig_completed_time l
   /\ post_dig_delay <= current_time_ms f - dig_completed_time l
   /\ auto_sell_ready f = true)
  /\ (running d = true -> auto_walk_enabled f = true -> is_selling f = false ->
      auto_walk_state l = move -> pending_auto_sell l = true ->
      0 < dig_completed_time l ->
      post_dig_delay <= current_time_ms f - dig_completed_time l ->
      d' = d
      /\ pending_auto_sell l' = false
      /\ dig_completed_time l' = 0
      /\ auto_walk_state l' = move
      /\ a = if auto_sell_ready f then [StartAutoSell] else []).
Proof.
  unfold auto_walk_step, step_move, step_click_to_start,
    step_wait_for_target, step_digging.
  intro H. split.
  - intro Hin.
    destruct (running d); [|simpl in H; ok_inv; destruct Hin].
    destruct (auto_walk_enabled f); [|simpl in H; ok_inv; destruct Hin].
    destruct (is_selling f); [simpl in H; ok_inv; destruct Hin|].
    cbn [negb andb] in H.
    destruct (auto_walk_state l);
      try (exfalso; repeat (break_match; ok_inv);
           try (destruct Hin as [C|[]]; discriminate C); now destruct Hin).
    destruct (_ && _ && _) eqn:Hdue.
    + destruct (auto_sell_ready f); ok_inv; [|destruct Hin].
      bool_hyps. reflect_all. repeat split; auto.
    + exfalso. repeat (break_match; ok_inv);
        try (destruct Hin as [C|[]]; discriminate C); now destruct Hin.
  - intros Hr Ha Hs Hst Hp Hpos Hdue.
    rewrite Hr, Ha, Hs, Hst, Hp in H. cbn [negb andb] in H.
    rewrite (py_ltb_true _ _ Hpos), (py_leb_true _ _ Hdue) in H.
    cbn [andb] in H.
    destruct (auto_sell_ready f); ok_inv; fields; auto.
Qed.

(** X12. A sale is started only from [move], with the bot running,
    auto-walk enabled and no sale in progress, when a sale is pending, the
    post-dig delay of 2000 ms has passed and the automation manager reports
    ready.  A pending sale whose delay has passed is always resolved in
    that frame: started if ready and dropped if not, and either way the
    pending flag and [dig_completed_time] are cleared and no walk step is
    issued. *)
Theorem pending_sale_is_resolved d l f d' l' a :
  auto_walk_step d l f = (d', l', a) ->
  (In StartAutoSell a ->
   running d = true /\ auto_walk_enabled f = true /\ is_selling f = false
   /\ auto_walk_state l = move /\ pending_auto_sell l = true
   /\ 0 < dig_completed_time l
   /\ post_dig_delay <= current_time_ms f - dig_completed_time l
   /\ auto_sell_ready f = true)
  /\ (running d = true -> auto_walk_enabled f = true -> is_selling f = false ->
      auto_walk_state l = move -> pending_auto_sell l = true ->
      0 < dig_completed_time l ->
      post_dig_delay <= current_time_ms f - dig_completed_time l ->
      d' = d
      /\ pending_auto_sell l' = false
      /\ dig_completed_time l' = 0
      /\ auto_walk_state l' = move
      /\ a = if auto_sell_ready f then [StartAutoSell] else []).
Proof. apply auto_walk_step_sale. Qed.


Lemma pending_sale_is_resolved_witness :
  pending_auto_sell
    (snd (fst (auto_walk_step (set_running true init_DigTool)
                 (set_dig_completed_time 1000
                    (set_pending_auto_sell true init_Locals))
                 (timeout_frame 3000)))) = false.
Proof.
  destruct (pending_sale_is_resolved (set_running true init_DigTool)
              (set_dig_completed_time 1000
                 (set_pending_auto_sell true init_Locals))
              (timeout_frame 3000) _ _ _ eq_refl) as [_ H].
  apply H; try reflexivity; unfold Qle; simpl; lia.
Defined.

(** X13. If the click token is still held when the wait-for-target window
    runs out, the retry is spent without a click and without restarting the
    window: three frames in a row with the token held and no engagement use
    up both retries and return the machine to [move] with the counter at 0,
    and no click is started in any of them. *)
Theorem retries_are_spent_while_token_is_held d l f1 f2 f3 :
  running d = true ->
  click_lock d = true ->
  target_engaged d = false ->
  auto_walk_state l = wait_for_target ->
  click_retry_count l = 0%Z ->
  Forall (fun f => auto_walk_enabled f = true /\ is_selling f = false)
    [f1; f2; f3] ->
  max_wait_time < current_time_ms f1 - wait_for_target_start l ->
  current_time_ms f1 <= current_time_ms f2 ->
  current_time_ms f2 <= current_time_ms f3 ->
  exists l1 l2 l3,
    auto_walk_step d l f1 = (d, l1, [])
    /\ auto_walk_step d l1 f2 = (d, l2, [])
    /\ auto_walk_step d l2 f3 = (d, l3, [])
    /\ click_retry_count l1 = 1%Z
    /\ click_retry_count l2 = 2%Z
    /\ wait_for_target_start l2 = wait_for_target_start l
    /\ auto_walk_state l3 = move
    /\ click_retry_count l3 = 0%Z.
Proof.
  intros Hr Hl He Hst Hc Hfs H1 H2 H3.
  inversion Hfs as [|? ? [Ha1 Hs1] Hfs1]; subst.
  inversion Hfs1 as [|? ? [Ha2 Hs2] Hfs2]; subst.
  inversion Hfs2 as [|? ? [Ha3 Hs3] _]; subst.
  assert (Hstep : forall l0 f,
             auto_walk_enabled f = true -> is_selling f = false ->
             auto_walk_state l0 = wait_for_target ->
             max_wait_time < current_time_ms f - wait_for_target_start l0 ->
             (click_retry_count l0 < max_click_retries)%Z ->
             auto_walk_step d l0 f
             = (d, set_click_retry_count (click_retry_count l0 + 1)%Z l0, [])).
  { intros l0 f Ha Hs Hst0 Ht Hlt.
    unfold auto_walk_step, step_wait_for_target.
    rewrite Hr, Ha, Hs, Hst0, He. cbn [negb andb].
    rewrite (py_ltb_true _ _ Ht). apply Z.ltb_lt in Hlt. rewrite Hlt.
    fields. rewrite Hl. reflexivity. }
  eexists _, _, _.
  split. { apply Hstep; auto. rewrite Hc. reflexivity. }
  split. { apply Hstep; fields; auto; [lra|rewrite Hc; reflexivity]. }
  split.
  { apply wait_timeout_give_up; fields; auto; [lra|].
    rewrite Hc. unfold max_click_retries. lia. }
  fields. rewrite Hc. repeat split; auto.
Qed.

Lemma retries_are_spent_while_token_is_held_witness :
  exists l3,
    auto_walk_state l3 = move /\ click_retry_count l3 = 0%Z.
Proof.
  destruct (retries_are_spent_while_token_is_held
              (set_click_lock true (set_running true init_DigTool)) waiting
              (timeout_frame 6001) (timeout_frame 6017) (timeout_frame 6033))
    as (l1 & l2 & l3 & _ & _ & _ & _ & _ & _ & Hm & Hc);
    try reflexivity.
  - repeat constructor.
  - unfold Qle. simpl. lia.
  - unfold Qle. simpl. lia.
  - exists l3. split; assumption.
Defined.

(** ** When a sale becomes pending, and when it is dropped *)

Lemma clear_stale_pending_sell_pending l f :
  pending_auto_sell (clear_stale_pending_sell l f) = true ->
  pending_auto_sell l = true
  /\ ~ (0 < dig_completed_time l
        /\ 10000 < current_time_ms f - dig_completed_time l).
Proof.
  unfold clear_stale_pending_sell.
  destruct (pending_auto_sell l) eqn:Hp; cbn [andb];
    [|intro E; congruence].
  destruct (Py.ltb 0 (dig_completed_time l)) eqn:H0.
  - destruct (Py.ltb 10000 _) eqn:H1; fields; [discriminate|].
    intros _. split; [reflexivity|]. reflect_all. intros [_ C]. lra.
  - intros _. split; [reflexivity|]. reflect_all. intros [C _]. lra.
Qed.

Lemma auto_walk_step_pending d l f d' l' a :
  auto_walk_step d l f = (d', l', a) ->
  pending_auto_sell l' = true -> pending_auto_sell l = true.
Proof.
  unfold auto_walk_step, step_move, step_click_to_start,
    step_wait_for_target, step_digging.
  intros H Hp.
  repeat (break_match; ok_inv); fields; auto; discriminate.
Qed.

Lemma complete_dig_pending d l f d' l' :
  complete_dig d l f = Ok (d', l') ->
  pending_auto_sell l = false ->
  pending_auto_sell l' = true ->
  dig_count d' = (dig_count d + 1)%Z
  /\ auto_sell_enabled f = true
  /\ sell_button_set f = true
  /\ (0 < dig_count d')%Z
  /\ sell_every_x_digs f <> 0%Z
  /\ (dig_count d' mod sell_every_x_digs f = 0)%Z
  /\ dig_completed_time l' = current_time_ms f.
Proof.
  unfold complete_dig. intros H Hp Hp'.
  break_if; [|ok_inv; congruence].
  apply bind_ok in H. destruct H as (l1 & Hl1 & H). ok_inv. fields.
  destruct (auto_sell_enabled f && sell_button_set f
            && (0 <? dig_count d + 1)%Z) eqn:Hc;
    [|ok_inv; fields; congruence].
  destruct (Z.eqb_spec (sell_every_x_digs f) 0); [discriminate|].
  destruct (Z.eqb_spec ((dig_count d + 1) mod sell_every_x_digs f) 0);
    ok_inv; fields; [|congruence].
  bool_hyps. repeat split; auto. now apply Z.ltb_lt.
Qed.

Section SaleFacts.

Variable float_pow : Q -> Q -> Q.

Lemma click_scheduler_no_sale d l f sweet allow d' l' a :
  click_scheduler float_pow d l f sweet allow = Ok (d', l', a) ->
  ~ In StartAutoSell a.
Proof.
  intro H. apply click_scheduler_self in H.
  destruct H as [[_ ->]|(_ & _ & _ & _ & u & c & [(x & _ & ->)|(s & Hp & ->)])].
  - intros [].
  - intros [C|[C|[]]]; discriminate.
  - apply perform_instant_click_self in Hp. destruct Hp as (_ & _ & [->| ->]).
    + intros [C|[]]. discriminate.
    + intros [C|[C|[]]]; discriminate.
Qed.

Lemma iteration_locals d l f d' l' a :
  iteration float_pow d l f = Ok (d', l', a) ->
  exists dw lw aw dc lc ac de,
    auto_walk_step de (clear_stale_pending_sell l f) f = (dw, lw, aw)
    /\ running de = running d
    /\ click_scheduler float_pow dw lw f
         (match sweet_spot de f with Ok s => s | Raise _ => None end)
         (should_allow_clicking dw lw f) = Ok (dc, lc, ac)
    /\ (lc = lw \/ exists delay, lc = set_click_delay delay lw)
    /\ complete_dig dc lc f = Ok (d', l')
    /\ dig_count dc = dig_count d
    /\ a = aw ++ ac.
Proof.
  intro H. apply iteration_inv in H.
  destruct H as (dz & de & sweet & dw & lw & aw & dc & lc & ac
                 & Hz & Hde & Hs & Hw & Hc & Hd & ->).
  exists dw, lw, aw, dc, lc, ac, de.
  destruct (iteration_prefix d f dz Hz) as (Hrun & _ & Hdig & _).
  cbv zeta in Hrun, Hdig. rewrite <- Hde in Hrun, Hdig.
  rewrite Hs.
  assert (Hdw : dig_count dw = dig_count de).
  { pose proof (auto_walk_step_self _ _ _ _ _ _ Hw) as Hw'.
    destruct Hw' as [[-> _]|(_ & -> & _)]; reflexivity. }
  assert (Hdc : dig_count dc = dig_count dw).
  { pose proof (click_scheduler_self _ _ _ _ _ _ _ _ _ Hc) as Hc'.
    destruct Hc' as [[-> _]|(_ & _ & _ & _ & u & c
                              & [(x & -> & _)|(s & Hp & _)])];
      fields; auto.
    apply perform_instant_click_self in Hp. destruct Hp as (-> & _).
    reflexivity. }
  repeat split; auto; [|congruence].
  eapply click_scheduler_locals; eauto.
Qed.

Lemma iteration_sale_pending d l f d' l' a :
  iteration float_pow d l f = Ok (d', l', a) ->
  pending_auto_sell (clear_stale_pending_sell l f) = false ->
  pending_auto_sell l' = true ->
  auto_walk_state l = digging /\ auto_walk_state l' = move
  /\ dig_count d' = (dig_count d + 1)%Z
  /\ auto_sell_enabled f = true
  /\ sell_button_set f = true
  /\ (0 < dig_count d')%Z
  /\ sell_every_x_digs f <> 0%Z
  /\ (dig_count d' mod sell_every_x_digs f = 0)%Z
  /\ dig_completed_time l' = current_time_ms f.
Proof.
  intros H Hp Hp'.
  pose proof (iteration_counts_dig_once float_pow _ _ _ _ _ _ H) as Honce.
  apply iteration_locals in H.
  destruct H as (dw & lw & aw & dc & lc & ac & de
                 & Hw & _ & _ & Hlc & Hd & Hdig & _).
  assert (Hpw : pending_auto_sell lw = false).
  { destruct (pending_auto_sell lw) eqn:E; [|reflexivity].
    apply (auto_walk_step_pending _ _ _ _ _ _ Hw) in E. congruence. }
  assert (Hpc : pending_auto_sell lc = false)
    by (destruct Hlc as [->|[x ->]]; exact Hpw).
  destruct (complete_dig_pending _ _ _ _ _ Hd Hpc Hp')
    as (Hdc & H1 & H2 & H3 & H4 & H5 & H6).
  destruct Honce as [Hsame|(Hs & Hs' & Hcount)].
  - exfalso. lia.
  - rewrite Hcount in *. repeat split; auto.
Qed.

End SaleFacts.

(** X14. A sale becomes pending only in a frame that completes a dig: that
    frame starts in [digging], ends in [move] and counts the dig, auto-sell
    is enabled, a sell button position is set and the new dig count is a
    positive multiple of [sell_every_x_digs]. *)
Theorem sale_pending_only_after_counted_dig float_pow d l f d' l' a :
  iteration float_pow d l f = Ok (d', l', a) ->
  pending_auto_sell l = false ->
  pending_auto_sell l' = true ->
  auto_walk_state l = digging /\ auto_walk_state l' = move
  /\ dig_count d' = (dig_count d + 1)%Z
  /\ auto_sell_enabled f = true
  /\ sell_button_set f = true
  /\ (0 < dig_count d')%Z
  /\ sell_every_x_digs f <> 0%Z
  /\ (dig_count d' mod sell_every_x_digs f = 0)%Z
  /\ dig_completed_time l' = current_time_ms f.
Proof.
  intros H Hp Hp'. eapply iteration_sale_pending; eauto.
  destruct (pending_auto_sell (clear_stale_pending_sell l f)) eqn:E;
    [|reflexivity].
  apply clear_stale_pending_sell_pending in E. destruct E. congruence.
Qed.

(** X15. A pending sale that has not been started 10 s after the dig was
    completed is dropped: in a frame more than 10000 ms past
    [dig_completed_time], started outside [digging], the pending flag is
    cleared and no sale is started, whether or not the bot is running. *)
Theorem stale_pending_sale_is_dropped float_pow d l f d' l' a :
  iteration float_pow d l f = Ok (d', l', a) ->
  pending_auto_sell l = true ->
  0 < dig_completed_time l ->
  10000 < current_time_ms f - dig_completed_time l ->
  auto_walk_state l <> digging ->
  pending_auto_sell l' = false /\ ~ In StartAutoSell a.
Proof.
  intros H Hp Hpos Hstale Hst.
  assert (Hclear : pending_auto_sell (clear_stale_pending_sell l f) = false).
  { destruct (pending_auto_sell (clear_stale_pending_sell l f)) eqn:E;
      [|reflexivity].
    apply clear_stale_pending_sell_pending in E. destruct E as [_ C].
    exfalso. apply C. auto. }
  split.
  - destruct (pending_auto_sell l') eqn:E; [|reflexivity]. exfalso.
    destruct (iteration_sale_pending float_pow _ _ _ _ _ _ H Hclear E)
      as (C & _). contradiction.
  - apply iteration_locals in H.
    destruct H as (dw & lw & aw & dc & lc & ac & de
                   & Hw & _ & Hc & _ & _ & _ & ->).
    intro Hin. apply in_app_or in Hin. destruct Hin as [Hin|Hin].
    + apply (proj1 (auto_walk_step_sale _ _ _ _ _ _ Hw)) in Hin.
      destruct Hin as (_ & _ & _ & _ & C & _). congruence.
    + eapply click_scheduler_no_sale; eauto.
Qed.

Lemma sale_pending_only_after_counted_dig_witness :
  Py.returns
    (iteration unit_pow ninth_dig lost_since_18000
       (with_auto_sell 10 (lost_line_frame 20000)))
    (fun r => dig_count (fst (fst r)) = (dig_count ninth_dig + 1)%Z
              /\ auto_walk_state (snd (fst r)) = move).
Proof.
  destruct (iteration unit_pow ninth_dig lost_since_18000
              (with_auto_sell 10 (lost_line_frame 20000)))
    as [[[d' l'] a]|] eqn:E; [|vm_compute in E; discriminate].
  simpl.
  destruct (sale_pending_only_after_counted_dig unit_pow ninth_dig
              lost_since_18000 (with_auto_sell 10 (lost_line_frame 20000))
              d' l' a E) as (_ & Hm & Hc & _).
  - reflexivity.
  - vm_compute in E. injection E as _ <- _. reflexivity.
  - split; assumption.
Defined.

Lemma stale_pending_sale_is_dropped_witness :
  Py.returns
    (iteration unit_pow init_DigTool sale_pending_since_1000
       (lost_line_frame 12000))
    (fun r => pending_auto_sell (snd (fst r)) = false
              /\ ~ In StartAutoSell (snd r)).
Proof.
  destruct (iteration unit_pow init_DigTool sale_pending_since_1000
              (lost_line_frame 12000))
    as [[[d' l'] a]|] eqn:E; [|vm_compute in E; discriminate].
  simpl.
  apply (stale_pending_sale_is_dropped unit_pow init_DigTool
           sale_pending_since_1000 (lost_line_frame 12000) d' l' a E).
  - reflexivity.
  - reflexivity.
  - reflexivity.
  - discriminate.
Defined.

(** ** The movement history is a sliding window *)






Section WindowFacts.

Variable float_pow : Q -> Q -> Q.



End WindowFacts.



(** ** The latency cache *)

(** With a cached value and a measurement time, the cache answers. *)
Lemma get_cached_system_latency_hit s c t now now_m after_m after external :
  cached_latency s = Some c ->
  latency_measurement_time s = Some t ->
  get_cached_system_latency s now now_m after_m after external = (Ok c, s).
Proof.
  intros Hc Ht. unfold get_cached_system_latency. rewrite Hc, Ht.
  destruct (Py.ltb (now - t) 300); reflexivity.
Qed.

(** X17. The latency is measured once.  When
    [get_cached_system_latency] returns a value, every later call returns
    that same value and leaves the attributes as they are, whatever the
    clock reads and whatever a new measurement would give: the comparison
    with 300 seconds decides nothing. *)
Theorem cached_latency_never_expires
  s now now_m after_m after external v s1 :
  get_cached_system_latency s now now_m after_m after external = (Ok v, s1) ->
  forall now' now_m' after_m' after' external',
    get_cached_system_latency s1 now' now_m' after_m' after' external'
    = (Ok v, s1).
Proof.
  intro H.
  assert (Hs1 : cached_latency s1 = Some v
                /\ exists t, latency_measurement_time s1 = Some t).
  { unfold get_cached_system_latency in H.
    destruct (cached_latency s) as [c|] eqn:Ec;
      [destruct (latency_measurement_time s) as [t|] eqn:Et;
         [destruct (Py.ltb (now - t) 300)|]|];
      try (inversion H; subst; eauto; fail);
      destruct (measure_system_latency s now_m after_m external)
        as [[x|e] s2]; inversion H; subst; simpl; eauto. }
  destruct Hs1 as (Hc & t & Ht). intros.
  eapply get_cached_system_latency_hit; eauto.
Qed.

Lemma cached_latency_never_expires_witness :
  get_cached_system_latency
    (snd (get_cached_system_latency no_latency 1000 1000 1001 1001 (Ok 42)))
    5000 5000 5001 5001 (Ok 7)
  = (Ok 42,
     snd (get_cached_system_latency no_latency 1000 1000 1001 1001 (Ok 42))).
Proof.
  apply (cached_latency_never_expires no_latency 1000 1000 1001 1001 (Ok 42)).
  reflexivity.
Defined.

(** X18. A forced re-measurement replaces the served latency.  With the
    clock at 30 seconds or more, [force_latency_remeasurement] takes a new
    measurement however recent the last one is; when the measurement
    succeeds with [v], the call returns [v], stores it as measured and as
    cached value with the time read after the measurement, and every later
    [get_cached_system_latency] returns [v]. *)
Theorem forced_measurement_is_served s now after v :
  30 <= now ->
  exists s1,
    force_latency_remeasurement s now after (Ok v) = (Ok v, s1)
    /\ measured_latency s1 = Some v
    /\ latency_measurement_time s1 = Some after
    /\ cached_latency s1 = Some v
    /\ forall now' now_m' after_m' after' external',
         get_cached_system_latency s1 now' now_m' after_m' after' external'
         = (Ok v, s1).
Proof.
  intro Hnow.
  assert (E : force_latency_remeasurement s now after (Ok v)
              = (Ok v, {| measured_latency := Some v;
                          latency_measurement_time := Some after;
                          cached_latency := Some v |})).
  { unfold force_latency_remeasurement, measure_system_latency.
    destruct (latency_measurement_time s) as [t|] eqn:Et; simpl.
    - assert (Hl : Py.ltb (now - 0) 30 = false)
        by (apply py_ltb_false; lra).
      rewrite Hl. destruct (measured_latency s); reflexivity.
    - rewrite Et. destruct (measured_latency s); reflexivity. }
  eexists. split; [exact E|]. simpl. repeat split.
  intros. eapply get_cached_system_latency_hit; reflexivity.
Qed.

Lemma forced_measurement_is_served_witness :
  exists s1,
    force_latency_remeasurement
      (snd (get_cached_system_latency no_latency 1000 1000 1001 1001 (Ok 42)))
      1010 1011 (Ok 7) = (Ok 7, s1)
    /\ cached_latency s1 = Some 7.
Proof.
  destruct (forced_measurement_is_served
              (snd (get_cached_system_latency no_latency 1000 1000 1001 1001
                      (Ok 42)))
              1010 1011 7) as (s1 & E & _ & _ & Hc & _).
  - unfold Qle. simpl. lia.
  - exists s1. split; assumption.
Defined.

(** X19. The fallback latency is stored but not served.  When the initial
    measurement raises on an object that has no measurement time yet,
    [perform_initial_latency_measurement] returns 50 and caches it without
    setting the time; the next [get_cached_system_latency] therefore
    measures again: it returns and caches the new measurement, or lets the
    measurement's exception through with the attributes unchanged. *)
Theorem fallback_latency_is_not_served s now after e :
  latency_measurement_time s = None ->
  exists s1,
    perform_initial_latency_measurement s now after (Raise e) = (50, s1)
    /\ cached_latency s1 = Some 50
    /\ latency_measurement_time s1 = None
    /\ (forall now' now_m' after_m' after' v,
          exists s2,
            get_cached_system_latency s1 now' now_m' after_m' after' (Ok v)
            = (Ok v, s2)
            /\ cached_latency s2 = Some v
            /\ latency_measurement_time s2 = Some after')
    /\ (forall now' now_m' after_m' after' e',
          get_cached_system_latency s1 now' now_m' after_m' after' (Raise e')
          = (Raise e', s1)).
Proof.
  intro Ht.
  assert (E : perform_initial_latency_measurement s now after (Raise e)
              = (50, set_cached_latency 50 s)).
  { unfold perform_initial_latency_measurement, measure_system_latency.
    rewrite Ht. destruct (measured_latency s); reflexivity. }
  eexists. split; [exact E|]. simpl.
  split; [reflexivity|]. split; [exact Ht|]. split.
  - intros. unfold get_cached_system_latency, measure_system_latency. simpl.
    rewrite Ht. destruct (measured_latency s); simpl; eexists; eauto.
  - intros. unfold get_cached_system_latency, measure_system_latency. simpl.
    rewrite Ht. destruct (measured_latency s); reflexivity.
Qed.

Lemma fallback_latency_is_not_served_witness :
  fst (get_cached_system_latency
         (snd (perform_initial_latency_measurement no_latency 1000 1001
                 (Raise TypeError)))
         2000 2000 2001 2001 (Ok 42))
  = Ok 42.
Proof.
  destruct (fallback_latency_is_not_served no_latency 1000 1001 TypeError)
    as (s1 & E & _ & _ & Hok & _).
  - reflexivity.
  - rewrite E. simpl.
    destruct (Hok 2000 2000 2001 2001 42) as (s2 & -> & _). reflexivity.
Defined.

(** ** Milestone notifications *)

Lemma milestones_sorted p ds : forall last,
  webhook_url p <> EmptyString ->
  (0 < milestone_interval p)%Z ->
  counting_up ds ->
  Forall (fun d => dig_count d <> last) ds ->
  snd (milestones last p ds)
  = map (milestone_of p) (filter (at_milestone (milestone_interval p)) ds).
Proof.
  induction ds as [|d ds IH]; intros last Hurl Hk Hup Hlast; [reflexivity|].
  unfold counting_up in *. simpl in Hup.
  apply StronglySorted_inv in Hup. destruct Hup as [Hup Hd].
  apply Forall_cons_iff in Hlast. destruct Hlast as [Hne Hlast].
  simpl. unfold check_milestone_notifications, at_milestone.
  apply String.eqb_neq in Hurl. rewrite Hurl.
  assert (Hk' : (milestone_interval p <=? 0)%Z = false)
    by (apply Z.leb_gt; exact Hk).
  rewrite Hk'. cbn [orb].
  assert (Hn : (dig_count d =? last)%Z = false) by (apply Z.eqb_neq; exact Hne).
  rewrite Hn. cbn [negb]. rewrite andb_true_r.
  destruct ((0 <? dig_count d)%Z && (dig_count d mod milestone_interval p =? 0)%Z).
  - specialize (IH (dig_count d)).
    destruct (milestones (dig_count d) p ds) as [last' more]. simpl in *.
    f_equal. apply IH; auto; try (apply String.eqb_neq; exact Hurl).
    rewrite Forall_forall. intros d' Hin E.
    rewrite Forall_forall in Hd.
    specialize (Hd (dig_count d') (in_map dig_count _ _ Hin)). lia.
  - specialize (IH last).
    destruct (milestones last p ds) as [last' more]. simpl in *.
    apply IH; auto. apply String.eqb_neq; exact Hurl.
Qed.

(** X20. One notification per milestone.  With a webhook set and a
    positive interval, over successive calls at growing dig counts none of
    which is the count notified last, [check_milestone_notifications]
    starts exactly one notification for each call at a positive multiple of
    the interval and none otherwise, in order; each carries the dig and
    click counters of that moment, the user id ([None] when empty) and the
    screenshot setting. *)
Theorem one_notification_per_milestone last p ds :
  webhook_url p <> EmptyString ->
  (0 < milestone_interval p)%Z ->
  counting_up ds ->
  Forall (fun d => dig_count d <> last) ds ->
  snd (milestones last p ds)
  = map (milestone_of p) (filter (at_milestone (milestone_interval p)) ds).
Proof. apply milestones_sorted. Qed.

Lemma one_notification_per_milestone_witness :
  map milestone_digs (snd (milestones 0 every_second_dig four_digs))
  = [2; 4]%Z.
Proof.
  rewrite (one_notification_per_milestone 0 every_second_dig four_digs).
  - reflexivity.
  - discriminate.
  - reflexivity.
  - unfold counting_up. simpl.
    repeat (constructor; [|repeat (constructor; try lia)]). constructor.
  - repeat (constructor; [simpl; lia|]). constructor.
Defined.
